(** * The AI model router of XCreator Pro: selection, fallback, health checks

    A shallow embedding of the [ModelRouter] and [RoundRobinLoadBalancer]
    classes of [model-router/index.js] and of the [/generate] handler of
    [runpod-integration/server.js], with the properties of the routing core
    stated over it.

    Conventions of the embedding:
    - the object [this.models] is an association list in insertion order,
      which is the order of [Object.entries] and [Object.keys] for keys
      that are not array indices, as those of the registry are;
    - a model object is identified by the key it is stored under, so a
      function of the source that returns a model object returns its entry;
    - a read [object[name]] with a name taken from a request sees, besides
      the properties of the object, the members of [Object.prototype];
    - JavaScript numbers that count or index are [Z] or [nat]; [undefined]
      is [None]; [NaN] has a constructor of its own where it can arise;
    - a string is a sequence of characters of one code unit each, so that
      [String.length] is the [length] of the source;
    - the network is an oracle argument, so every function below computes;
    - [findFallbackModel], which [generateContent] calls and no file of the
      repository defines, is an argument as well;
    - a request is handled from its first selection to its result without a
      health check running in between. *)

From Stdlib Require Import ZArith QArith Lia.
From stdpp Require Import base strings list gmap.

Local Open Scope string_scope.
Local Open Scope list_scope.
Local Open Scope Z_scope.

(** ** Round-robin load balancer *)

Module LoadBalancer.

(** [currentIndex] is a JavaScript number: after [x % 0] it is [NaN]. *)
Inductive Index : Type :=
| Idx (i : nat)
| NaN.

Record RoundRobinLoadBalancer : Type := mkLB {
  endpoints : list string;
  currentIndex : Index
}.

(** [constructor(endpoints)] *)
Definition new (eps : list string) : RoundRobinLoadBalancer :=
  {| endpoints := eps; currentIndex := Idx 0 |}.

(** [this.endpoints[this.currentIndex]]: [undefined] out of range or at
    [NaN]. *)
Definition currentEndpoint (lb : RoundRobinLoadBalancer) : option string :=
  match currentIndex lb with
  | Idx i => endpoints lb !! i
  | NaN => None
  end.

(** [(this.currentIndex + 1) % this.endpoints.length] *)
Definition nextIndex (lb : RoundRobinLoadBalancer) : Index :=
  match currentIndex lb, length (endpoints lb) with
  | Idx i, S n => Idx ((i + 1) `mod` S n)
  | _, _ => NaN
  end.

(** [getNextEndpoint()]: the endpoint returned and the balancer after the
    call. *)
Definition getNextEndpoint (lb : RoundRobinLoadBalancer)
  : option string * RoundRobinLoadBalancer :=
  (currentEndpoint lb,
   {| endpoints := endpoints lb; currentIndex := nextIndex lb |}).

(** [k] consecutive calls: the endpoints returned, in order, and the final
    balancer. *)
Fixpoint calls (k : nat) (lb : RoundRobinLoadBalancer)
  : list (option string) * RoundRobinLoadBalancer :=
  match k with
  | O => ([], lb)
  | S k' =>
      let '(e, lb1) := getNextEndpoint lb in
      let '(es, lb2) := calls k' lb1 in
      (e :: es, lb2)
  end.

(** The balancer before the [k]-th call (1-based), that is after [k-1]
    calls. *)
Definition before_call (k : nat) (lb : RoundRobinLoadBalancer)
  : RoundRobinLoadBalancer := (calls (k - 1) lb).2.

Definition nth_call (k : nat) (lb : RoundRobinLoadBalancer) : option string :=
  (getNextEndpoint (before_call k lb)).1.

End LoadBalancer.

(** ** Provider registry: [this.models] *)

Module Router.
Import LoadBalancer.

(** [config] of a model descriptor. A field the literal does not carry is
    [undefined] ([None]): [hfHub] has no [model], [max_tokens] or [top_p],
    and is the only one with [max_new_tokens] and [do_sample]. The sampling
    parameters are decimal literals, kept as written. *)
Record Config : Type := mkConfig {
  model : option string;
  max_tokens : option Z;
  temperature : option string;
  top_p : option string;
  max_new_tokens : option Z;
  do_sample : option bool
}.

(** A value of [this.models]. These are all the fields a model object has;
    the mutable ones are [loadBalancer] (its index), [isHealthy] and
    [lastHealthCheck]. *)
Record Model : Type := mkModel {
  name : string;
  endpoint : string;
  healthEndpoint : string;
  config : Config;
  capabilities : list string;
  loadBalancer : RoundRobinLoadBalancer;
  isHealthy : bool;
  lastHealthCheck : Z
}.

Definition Entry : Type := string * Model.
Definition Registry : Type := list Entry.

Definition set_isHealthy (b : bool) (m : Model) : Model :=
  mkModel (name m) (endpoint m) (healthEndpoint m) (config m)
          (capabilities m) (loadBalancer m) b (lastHealthCheck m).

Definition set_lastHealthCheck (t : Z) (m : Model) : Model :=
  mkModel (name m) (endpoint m) (healthEndpoint m) (config m)
          (capabilities m) (loadBalancer m) (isHealthy m) t.

Definition set_loadBalancer (lb : RoundRobinLoadBalancer) (m : Model) : Model :=
  mkModel (name m) (endpoint m) (healthEndpoint m) (config m)
          (capabilities m) lb (isHealthy m) (lastHealthCheck m).

(** [initializeModels()]; [now] is the reading of [Date.now()]. *)
Definition initializeModels (now : Z) : Registry :=
  [ ("gemma3",
     {| name := "Google Gemma 3";
        endpoint := "http://gemma3:8000/v1/completions";
        healthEndpoint := "http://gemma3:8000/health";
        config := {| model := Some "google/gemma-2b-it";
                     max_tokens := Some 2048;
                     temperature := Some "0.7";
                     top_p := Some "0.9";
                     max_new_tokens := None;
                     do_sample := None |};
        capabilities := ["text-generation"; "code-generation"; "analysis"];
        loadBalancer := LoadBalancer.new ["http://gemma3:8000"];
        isHealthy := true;
        lastHealthCheck := now |});
    ("chatterbox",
     {| name := "Chatterbox AI";
        endpoint := "http://chatterbox:8000/v1/completions";
        healthEndpoint := "http://chatterbox:8000/health";
        config := {| model := Some "chatterbox-ai/chatterbox-7b";
                     max_tokens := Some 4096;
                     temperature := Some "0.8";
                     top_p := Some "0.95";
                     max_new_tokens := None;
                     do_sample := None |};
        capabilities := ["conversation"; "roleplay"; "character-interaction"];
        loadBalancer := LoadBalancer.new ["http://chatterbox:8000"];
        isHealthy := true;
        lastHealthCheck := now |});
    ("hfHub",
     {| name := "Hugging Face Hub";
        endpoint := "http://hf-hub:80/generate";
        healthEndpoint := "http://hf-hub:80/health";
        config := {| model := None;
                     max_tokens := None;
                     temperature := Some "0.7";
                     top_p := None;
                     max_new_tokens := Some 2048;
                     do_sample := Some true |};
        capabilities := ["text-generation"; "specialized-tasks"];
        loadBalancer := LoadBalancer.new ["http://hf-hub:80"];
        isHealthy := true;
        lastHealthCheck := now |}) ].

(** [Object.keys(this.models)] *)
Definition keys (models : Registry) : list string := map fst models.

(** The own property of [this.models] called [key], together with the
    key: the first (and, in an object, only) entry stored under [key]. *)
Fixpoint lookup_model (key : string) (models : Registry) : option Entry :=
  match models with
  | [] => None
  | (k, m) :: rest =>
      if String.eqb k key then Some (k, m) else lookup_model key rest
  end.

(** The properties every object inherits from [Object.prototype].
    [this.models] is an object literal, so the read [this.models[name]] of
    one of these names finds, when the registry has no key [name], the
    inherited member: a function, or for [__proto__] the prototype itself.
    Either is a truthy value that has no field [isHealthy]. *)
Definition objectPrototype : list string :=
  [ "constructor"; "hasOwnProperty"; "isPrototypeOf"; "propertyIsEnumerable";
    "toLocaleString"; "toString"; "valueOf"; "__proto__";
    "__defineGetter__"; "__defineSetter__";
    "__lookupGetter__"; "__lookupSetter__" ].

Definition inherited (name : string) : bool :=
  existsb (String.eqb name) objectPrototype.

(** The value of a property read on [this.models]: a model object of the
    registry, the member of [Object.prototype] of that name, or
    [undefined] ([Missing]). *)
Inductive Property : Type :=
| ModelObject (e : Entry)
| Member (name : string)
| Missing.

(** [this.models[key]] for a string [key]: own properties come before
    inherited ones. *)
Definition property (key : string) (models : Registry) : Property :=
  match lookup_model key models with
  | Some e => ModelObject e
  | None => if inherited key then Member key else Missing
  end.

(** Assignment to a field of the model object stored under [key]. *)
Definition update_model (key : string) (f : Model -> Model)
           (models : Registry) : Registry :=
  map (fun e : Entry => if String.eqb e.1 key then (e.1, f e.2) else e) models.

(** ** Selector: [selectOptimalModel(type, prompt)] *)

(** [model.capabilities.includes(type)] *)
Definition includes (x : string) (l : list string) : bool :=
  existsb (String.eqb x) l.

(** [a > b] and [a <= b] where [a] may be [undefined]: both are false
    then. *)
Definition num_gt (a : option Z) (b : Z) : bool :=
  match a with Some v => v >? b | None => false end.

Definition num_le (a : option Z) (b : Z) : bool :=
  match a with Some v => v <=? b | None => false end.

(** The score the loop body computes for a healthy entry. [prompt.length]
    is the length of the prompt string. *)
Definition score (name : string) (m : Model) (type prompt : string) : Z :=
  let score := 0 in
  let score := if includes type (capabilities m) then score + 20 else score in
  let score := if String.eqb name "chatterbox" && String.eqb type "conversation"
               then score + 15 else score in
  let score := if String.eqb name "gemma3" && String.eqb type "analysis"
               then score + 10 else score in
  let score := if String.eqb name "hfHub" && String.eqb type "specialized"
               then score + 10 else score in
  let promptLength := Z.of_nat (String.length prompt) in
  let score := if (promptLength >? 1000) && num_gt (max_tokens (config m)) 2048
               then score + 5 else score in
  let score := if (promptLength <? 500) && num_le (max_tokens (config m)) 1024
               then score + 3 else score in
  score + 5.

(** One iteration of the [for ... of Object.entries(this.models)] loop on
    the pair [(bestModel, bestScore)]. *)
Definition select_step (type prompt : string)
           (acc : option Entry * Z) (e : Entry) : option Entry * Z :=
  if negb (isHealthy e.2) then acc
  else
    let s := score e.1 e.2 type prompt in
    if s >? acc.2 then (Some e, s) else acc.

Definition select_loop (type prompt : string) (models : Registry)
  : option Entry * Z :=
  foldl (select_step type prompt) (None, 0) models.

(** [return bestModel || this.models.gemma3;] *)
Definition selectOptimalModel (models : Registry) (type prompt : string)
  : option Entry :=
  match (select_loop type prompt models).1 with
  | Some e => Some e
  | None => lookup_model "gemma3" models
  end.

(** ** Health monitor: [checkModelHealth()] *)

(** What [await axios.get(model.healthEndpoint, { timeout: 5000 })] does:
    it resolves with a response carrying [status], or it rejects (network
    error, timeout, or a status axios refuses). *)
Inductive ProbeResult : Type :=
| Responded (status : Z)
| Rejected.

(** The body of the loop for one model; [now] is [Date.now()]. *)
Definition probeModel (res : ProbeResult) (now : Z) (m : Model) : Model :=
  match res with
  | Responded status =>
      set_lastHealthCheck now (set_isHealthy (status =? 200) m)
  | Rejected =>
      set_lastHealthCheck now (set_isHealthy false m)
  end.

(** One run of [checkModelHealth()]: [probe key] is the outcome of the
    request issued for the entry [key], [now key] the clock reading taken
    after it. *)
Definition checkModelHealth (probe : string -> ProbeResult)
           (now : string -> Z) (models : Registry) : Registry :=
  map (fun e : Entry => (e.1, probeModel (probe e.1) (now e.1) e.2)) models.

(** ** Dispatcher: [generateContent(prompt, options)] *)

(** The fields of [options] that [generateContent] and its callers read to
    route the request: [model] and [type], each a string or absent. *)
Record Options : Type := mkOptions {
  opt_model : option string;
  opt_type : option string
}.

(** The three [throw new Error(...)] of [generateContent], and the error of
    a call of [findFallbackModel] that throws, which [generateContent] lets
    through; for the class as written, which has no such method, that is
    the [TypeError] whose message is given here. *)
Inductive Error : Type :=
| ModelNotFound (model : string)
| NoHealthyModels
| AllModelsUnavailable
| FallbackFailed.

Definition message (e : Error) : string :=
  match e with
  | ModelNotFound model =>
      String.append "Model " (String.append model " not found")
  | NoHealthyModels => "No healthy models available"
  | AllModelsUnavailable => "All models unavailable"
  | FallbackFailed => "this.findFallbackModel is not a function"
  end.

(** How a call ends: it returns [processResponse(selectedModel, ...)] for
    the model stored under [key], it throws, or the recursion has not
    ended within the fuel given. *)
Inductive Outcome : Type :=
| Returned (key : string)
| Thrown (e : Error)
| OutOfFuel.

(** What the call [this.findFallbackModel(selectedModel)] does: it returns
    a model object, the one stored under [key] when [key] is a key of
    [this.models] and an object that is not a value of [this.models]
    otherwise; it returns a falsy value; or it throws. *)
Inductive Fallback : Type :=
| Found (key : string)
| NotFound
| Raised.

(** What [generateContent] depends on and the class does not define.
    - [findFallbackModel models key] stands for the call
      [this.findFallbackModel(selectedModel)], where [selectedModel] is
      [this.models[key]], the model stored under [key] or, for a pin that
      names no model, the member of [Object.prototype] called [key]: the
      method is called twice and defined nowhere in the repository, so it
      is a parameter here.
    - [post attempts key] tells whether the [try] block (the
      [axios.post] to the endpoint of the model under [key] and
      [processResponse]) completes, given the keys attempted earlier in
      the same request. *)
Record Env : Type := mkEnv {
  findFallbackModel : Registry -> string -> Fallback;
  post : list string -> string -> bool
}.

(** [Object.keys(this.models).find(key => this.models[key] ===
    fallbackModel)]: [undefined] when the object is not in the registry. *)
Definition keyOf (models : Registry) (fallbackModel : string) : option string :=
  if existsb (String.eqb fallbackModel) (keys models)
  then Some fallbackModel else None.

(** The state a request carries through its recursive calls: the registry
    and the keys of the models a request was sent to, oldest first. *)
Definition Run : Type := Registry * list string * Outcome.

Fixpoint generateContent (env : Env) (fuel : nat) (models : Registry)
         (attempts : list string) (prompt : string) (options : Options)
  : Run :=
  match fuel with
  | O => (models, attempts, OutOfFuel)
  | S fuel' =>
      let model := default "auto" (opt_model options) in
      let type := default "general" (opt_type options) in
      let selectedModel :=
        if String.eqb model "auto"
        then match selectOptimalModel models type prompt with
             | Some e => ModelObject e
             | None => Missing
             end
        else property model models in
      match selectedModel with
      | Missing => (models, attempts, Thrown (ModelNotFound model))
      | Member name =>
          (* [!selectedModel.isHealthy] holds of a value without the field *)
          match findFallbackModel env models name with
          | Found fallbackModel =>
              generateContent env fuel' models attempts prompt
                (mkOptions (keyOf models fallbackModel) (opt_type options))
          | NotFound => (models, attempts, Thrown NoHealthyModels)
          | Raised => (models, attempts, Thrown FallbackFailed)
          end
      | ModelObject (key, selected) =>
          if negb (isHealthy selected) then
            match findFallbackModel env models key with
            | Found fallbackModel =>
                generateContent env fuel' models attempts prompt
                  (mkOptions (keyOf models fallbackModel) (opt_type options))
            | NotFound => (models, attempts, Thrown NoHealthyModels)
            | Raised => (models, attempts, Thrown FallbackFailed)
            end
          else
            let lb := (getNextEndpoint (loadBalancer selected)).2 in
            let models1 := update_model key (set_loadBalancer lb) models in
            let attempts1 := attempts ++ [key] in
            if post env attempts key then
              (models1, attempts1, Returned key)
            else
              let models2 := update_model key (set_isHealthy false) models1 in
              match findFallbackModel env models2 key with
              | Found fallbackModel =>
                  generateContent env fuel' models2 attempts1 prompt
                    (mkOptions (keyOf models2 fallbackModel) (opt_type options))
              | NotFound => (models2, attempts1, Thrown AllModelsUnavailable)
              | Raised => (models2, attempts1, Thrown FallbackFailed)
              end
      end
  end.

End Router.

(** ** HTTP surface *)

Module Http.
Import Router.

(** [res.status(s).json({ error, message })], or [res.json(result)] with
    the result of the model stored under [key] (status 200). *)
Inductive Response : Type :=
| ErrorJson (status : Z) (error : string) (message : option string)
| ResultJson (key : string).

Definition status_of (r : Response) : Z :=
  match r with
  | ErrorJson s _ _ => s
  | ResultJson _ => 200
  end.

(** [!x] for a string field of the body that may be absent. *)
Definition falsy (x : option string) : bool :=
  match x with
  | None => true
  | Some s => String.eqb s ""
  end.

(** [error.response?.status || 500]: the status of the response an error
    carries, and 500 when it carries none or one whose status is 0. *)
Definition errorStatus (status : option Z) : Z :=
  match status with
  | Some s => if s =? 0 then 500 else s
  | None => 500
  end.

(** The body of [POST /generate]: [{ prompt, model, type, options }], the
    last one reduced to the two routing fields it can override through
    [{ model, type, ...options }]. *)
Record GenerateBody : Type := mkBody {
  prompt : option string;
  body_model : option string;
  body_type : option string;
  options : Options
}.

(** [{ model, type, ...options }] after the defaults of the destructuring
    ([model = 'auto'], [type = 'general']). *)
Definition spread (b : GenerateBody) : Options :=
  mkOptions
    (Some (default (default "auto" (body_model b)) (opt_model (options b))))
    (Some (default (default "general" (body_type b)) (opt_type (options b)))).

(** What the handler of [POST /generate] leaves behind: the registry, the
    list of models a request was sent to, and the response ([None] when
    [generateContent] has not ended within the fuel). *)
Definition generate (env : Env) (fuel : nat) (models : Registry)
           (b : GenerateBody) : Registry * list string * option Response :=
  if falsy (prompt b) then
    (models, [], Some (ErrorJson 400 "Prompt is required" None))
  else
    match generateContent env fuel models [] (default "" (prompt b)) (spread b) with
    | (models', attempts, Returned key) =>
        (models', attempts, Some (ResultJson key))
    | (models', attempts, Thrown e) =>
        (models', attempts,
         Some (ErrorJson 500 "Generation failed" (Some (message e))))
    | (models', attempts, OutOfFuel) => (models', attempts, None)
    end.

(** *** Rate limiting middleware *)

(** [points: 100] and [duration: 60] of the [RateLimiterRedis] options. *)
Definition points : Z := 100.
Definition duration : Z := 60.

Record RateLimitRecord : Type := mkRecord {
  windowStart : Z;
  count : Z
}.

(** Whether the promise of [consume] resolves or rejects. *)
Inductive Consumed : Type :=
| Resolved
| Refused.

(** Modelled from the spec: [RateLimiterRedis.consume] belongs to the
    package rate-limiter-flexible and is not in the repository; the source
    only configures it. This is the fixed-window counter of the Rate
    Limiter contract: a caller without a record, or whose stored window
    started more than [duration] ago, opens a window with count 1; within
    a window the call is refused once the count has reached [points], and
    counted otherwise. [now] is in seconds. *)
Definition consume (now : Z) (key : string)
           (store : gmap string RateLimitRecord)
  : Consumed * gmap string RateLimitRecord :=
  match store !! key with
  | None => (Resolved, <[key := mkRecord now 1]> store)
  | Some r =>
      if now - windowStart r >? duration then
        (Resolved, <[key := mkRecord now 1]> store)
      else if count r >=? points then (Refused, store)
      else (Resolved, <[key := mkRecord (windowStart r) (count r + 1)]> store)
  end.

(** What a middleware does with a request: hand it on with [next()], or
    answer it. *)
Inductive Handled : Type :=
| Next
| Answer (r : Response).

(** The response of the [catch] of the rate limiting middleware. *)
Definition tooManyRequests : Response :=
  ErrorJson 429 "Too Many Requests"
    (Some "Rate limit exceeded. Please try again later.").

(** The rate limiting middleware of [setupMiddleware]: [await
    this.rateLimiter.consume(req.ip)] in a [try], [next()] after it, the
    429 response in the [catch]. *)
Definition rateLimit (now : Z) (ip : string)
           (store : gmap string RateLimitRecord)
  : Handled * gmap string RateLimitRecord :=
  match consume now ip store with
  | (Resolved, store') => (Next, store')
  | (Refused, store') => (Answer tooManyRequests, store')
  end.

(** A request of [ip] at time [t] opens a window: no record is stored for
    [ip], or the stored window started more than [duration] before [t]. *)
Definition opens_window (t : Z) (ip : string)
           (store : gmap string RateLimitRecord) : Prop :=
  match store !! ip with
  | None => True
  | Some r => duration < t - windowStart r
  end.

(** A caller's requests arriving at the times [times], oldest first: what
    the middleware did with each, and the store after the last. *)
Fixpoint requests (ip : string) (times : list Z)
         (store : gmap string RateLimitRecord)
  : list Handled * gmap string RateLimitRecord :=
  match times with
  | [] => ([], store)
  | t :: rest =>
      let '(h, store1) := rateLimit t ip store in
      let '(hs, store2) := requests ip rest store1 in
      (h :: hs, store2)
  end.

End Http.

(** ** The [/generate] handler of the RunPod proxy *)

Module RunPod.
Import Http.

(** The fields of the body the handler checks. *)
Record Body : Type := mkBody {
  prompt : option string;
  endpointId : option string
}.

(** How [axios.post] to [api.runpod.ai] ends: with data, or with an error
    that may carry the status of a response. *)
Inductive Upstream : Type :=
| Data
| Failure (status : option Z).

(** The response of the handler and whether RunPod was called.
    [apiKey] is [RUNPOD_API_KEY]. *)
Definition generate (apiKey : option string) (upstream : Upstream)
           (b : Body) : Z * option string * bool :=
  if falsy apiKey then (503, Some "RunPod API key not configured", false)
  else if falsy (prompt b) then (400, Some "Prompt is required", false)
  else if falsy (endpointId b) then
    (400, Some "RunPod endpoint ID is required", false)
  else
    match upstream with
    | Data => (200, None, true)
    | Failure st => (errorStatus st, None, true)
    end.

End RunPod.

(** ** The router as a transition system *)

Module System.
Import Router.

(** What changes [this.models] after the constructor: a run of
    [checkModelHealth] (a tick of the interval started by
    [startHealthChecks]) and a call of [generateContent]. *)
Inductive Event : Type :=
| Tick (probe : string -> ProbeResult) (now : string -> Z)
| Generate (env : Env) (fuel : nat) (prompt : string) (options : Options).

Definition step (models : Registry) (e : Event) : Registry :=
  match e with
  | Tick probe now => checkModelHealth probe now models
  | Generate env fuel prompt options =>
      (generateContent env fuel models [] prompt options).1.1
  end.

Definition run (models : Registry) (events : list Event) : Registry :=
  foldl step models events.


(** A [findFallbackModel] to run the router with, the class defining none:
    the first healthy provider other than the failed one, in registration
    order. It is one value of the parameter among others, used where a
    concrete run needs one; the properties of [generateContent] below are
    stated for every [findFallbackModel]. *)
Definition nextHealthy (models : Registry) (failed : string) : Fallback :=
  match filter (fun e : Entry =>
                  isHealthy e.2 = true /\ e.1 <> failed) models with
  | e :: _ => Found e.1
  | [] => NotFound
  end.

End System.

(** ** Predicates and scenarios the properties are stated with *)

Module Scenarios.
Import Router System.

(** [e] is the first entry of the highest score among the healthy entries
    of [models]: every healthy entry registered before it scores strictly
    less, every healthy entry registered after it scores at most as much. *)
Definition first_best (type prompt : string) (models : Registry) (e : Entry)
  : Prop :=
  exists before after,
    models = before ++ e :: after
    /\ isHealthy e.2 = true
    /\ (forall e', e' ∈ before -> isHealthy e'.2 = true ->
         score e'.1 e'.2 type prompt < score e.1 e.2 type prompt)
    /\ (forall e', e' ∈ after -> isHealthy e'.2 = true ->
         score e'.1 e'.2 type prompt <= score e.1 e.2 type prompt).

(** Every model object stored under [key] has [isHealthy === false]. *)
Definition down (models : Registry) (key : string) : Prop :=
  forall e, e ∈ models -> e.1 = key -> isHealthy e.2 = false.

(** Some model object stored under [key] has [isHealthy === true]. *)
Definition up (models : Registry) (key : string) : Prop :=
  exists e, e ∈ models /\ e.1 = key /\ isHealthy e.2 = true.

Definition all_down (models : Registry) : Prop :=
  forall e, e ∈ models -> isHealthy e.2 = false.

(** What the selection loop maintains on [(bestModel, bestScore)] once it
    has gone through the entries [seen]. *)
Definition loop_inv (type prompt : string) (seen : Registry)
           (acc : option Entry * Z) : Prop :=
  match acc.1 with
  | None => acc.2 = 0 /\ all_down seen
  | Some e =>
      acc.2 = score e.1 e.2 type prompt /\ first_best type prompt seen e
  end.

(** The model object [generateContent] selects, before it looks at the
    flag: none when the selection is [undefined] or, for a pin that names
    no model, a member of [Object.prototype]. *)
Definition selected (models : Registry) (options : Options) (prompt : string)
  : option Entry :=
  let model := default "auto" (opt_model options) in
  if String.eqb model "auto"
  then selectOptimalModel models (default "general" (opt_type options)) prompt
  else lookup_model model models.

(** What a call of [generateContent] entered with [models] and [attempts]
    guarantees about its run: no key is attempted twice; the keys it adds
    were up on entry; a key that is down stays down; every attempted key
    but the one that answered is down at the end; and the key that answered
    is the last one attempted and is still up. *)
Definition run_ok (models : Registry) (attempts : list string) (r : Run)
  : Prop :=
  NoDup r.1.2
  /\ (exists new, r.1.2 = attempts ++ new /\ forall k, k ∈ new -> up models k)
  /\ (forall k, down models k -> down r.1.1 k)
  /\ (forall k, k ∈ r.1.2 -> r.2 <> Returned k -> down r.1.1 k)
  /\ (forall k, r.2 = Returned k ->
        up r.1.1 k /\ exists init, r.1.2 = init ++ [k]).

(** The number of model objects whose flag is true. *)
Fixpoint healthy_count (models : Registry) : nat :=
  match models with
  | [] => O
  | e :: rest => ((if isHealthy e.2 then 1 else 0) + healthy_count rest)%nat
  end.

(** The selection of a call is a healthy model or [undefined]: the call
    goes straight to an attempt or to its error. *)
Definition ready (models : Registry) (options : Options) (prompt : string)
  : Prop :=
  (forall key sel,
     selected models options prompt = Some (key, sel) -> isHealthy sel = true)
  /\ (selected models options prompt = None ->
      inherited (default "auto" (opt_model options)) = false).

(** The registry of [initializeModels] after a health check in which every
    probe was rejected. *)
Definition allRejected : Registry :=
  checkModelHealth (fun _ => Rejected) (fun _ => 30000) (initializeModels 0).

(** The registry of [initializeModels] after a health check in which only
    the probe of [hfHub] was rejected. *)
Definition hfHubRejected : Registry :=
  checkModelHealth
    (fun key => if String.eqb key "hfHub" then Rejected else Responded 200)
    (fun _ => 30000) (initializeModels 0).

(** A descriptor with the given capabilities and flag, and the configuration
    of a completions server. A descriptor has no priority field to fill. *)
Definition provider (key : string) (caps : list string) (healthy : bool)
  : Model :=
  {| name := key;
     endpoint := "http://provider:8000/v1/completions";
     healthEndpoint := "http://provider:8000/health";
     config := {| model := Some key;
                  max_tokens := Some 2048;
                  temperature := Some "0.7";
                  top_p := Some "0.9";
                  max_new_tokens := None;
                  do_sample := None |};
     capabilities := caps;
     loadBalancer := LoadBalancer.new ["http://provider:8000"];
     isHealthy := healthy;
     lastHealthCheck := 0 |}.

(** The three providers of the selection scenario, registered in the order
    A, B, C. *)
Definition threeProviders : Registry :=
  [ ("A", provider "A" ["conversation"] true);
    ("B", provider "B" ["conversation"; "analysis"] true);
    ("C", provider "C" ["conversation"] false) ].

(** An environment in which the fallback is [nextHealthy] and every request
    to a provider succeeds, and one in which every request fails. *)
Definition reliable : Env := mkEnv nextHealthy (fun _ _ => true).
Definition failing : Env := mkEnv nextHealthy (fun _ _ => false).

(** The class as it is written: it has no method [findFallbackModel], so
    the call throws. Every request to a provider succeeds. *)
Definition asWritten : Env := mkEnv (fun _ _ => Raised) (fun _ _ => true).

(** A request pinned to [key], and an unpinned one, of the given type. *)
Definition pinned (key type : string) : Options :=
  mkOptions (Some key) (Some type).
Definition unpinned (type : string) : Options :=
  mkOptions (Some "auto") (Some type).

End Scenarios.

(** ** What a provider's entry is made of *)

Module Descriptors.
Import Router.

(** The fields of a model object that no method assigns: the descriptor and
    the endpoints of its balancer. *)
Definition static (m : Model)
  : string * string * string * Config * list string * list string :=
  (name m, endpoint m, healthEndpoint m, config m, capabilities m,
   LoadBalancer.endpoints (loadBalancer m)).

(** The registry with every model reduced to its static fields, in
    registration order. *)
Definition statics (models : Registry)
  : list (string * (string * string * string * Config * list string * list string)) :=
  map (fun e : Entry => (e.1, static e.2)) models.

(** The flags and the timestamps of the registry, in registration order. *)
Definition flags (models : Registry) : list (string * bool) :=
  map (fun e : Entry => (e.1, isHealthy e.2)) models.

Definition timestamps (models : Registry) : list (string * Z) :=
  map (fun e : Entry => (e.1, lastHealthCheck e.2)) models.

(** The balancers of the registry, in registration order. *)
Definition balancers (models : Registry)
  : list (string * LoadBalancer.RoundRobinLoadBalancer) :=
  map (fun e : Entry => (e.1, loadBalancer e.2)) models.

(** Whether the probe was answered with the status [checkModelHealth]
    accepts. *)
Definition accepted (res : ProbeResult) : bool :=
  match res with
  | Responded status => status =? 200
  | Rejected => false
  end.

End Descriptors.

(** ** Wire formats: [prepareRequestData] and [processResponse] *)

Module Wire.
Import Router.

(** A JavaScript value as the router meets it: what [JSON.parse] yields,
    and [undefined]. Numbers are the rationals of their decimal literals. *)
#[local] Unset Elimination Schemes.
Inductive Js : Type :=
| Undefined
| Null
| Bool (b : bool)
| Num (q : Q)
| Str (s : string)
| Arr (items : list Js)
| Obj (fields : list (string * Js)).
#[local] Set Elimination Schemes.

(** [v === undefined || v === null] *)
Definition nullish (v : Js) : bool :=
  match v with
  | Undefined | Null => true
  | _ => false
  end.

(** [!!v] *)
Definition truthy (v : Js) : bool :=
  match v with
  | Undefined | Null => false
  | Bool b => b
  | Num q => negb (Qeq_bool q 0)
  | Str s => negb (String.eqb s "")
  | Arr _ | Obj _ => true
  end.

(** [a || b] *)
Definition or (a b : Js) : Js := if truthy a then a else b.

(** The value stored under [name] in the fields of an object. *)
Fixpoint own (name : string) (fields : list (string * Js)) : Js :=
  match fields with
  | [] => Undefined
  | (k, v) :: rest => if String.eqb k name then v else own name rest
  end.

(** [v.name], for the names the source reads ([choices], [text],
    [message], [content], [usage], [generated_text]), none of which is a
    property of a string, a number, a boolean or an array. [None] is the
    [TypeError] of a property read on [undefined] or [null]. *)
Definition field (name : string) (v : Js) : option Js :=
  match v with
  | Undefined | Null => None
  | Obj fields => Some (own name fields)
  | _ => Some Undefined
  end.

(** [v?.name] *)
Definition optional (name : string) (v : Js) : Js :=
  match field name v with
  | Some x => x
  | None => Undefined
  end.

(** [v[0]]: the first element of an array, the first character of a
    string, the property ["0"] of an object. *)
Definition first (v : Js) : option Js :=
  match v with
  | Undefined | Null => None
  | Arr items => Some (match items with x :: _ => x | [] => Undefined end)
  | Str s =>
      Some (match s with String c _ => Str (String c EmptyString)
                       | EmptyString => Undefined end)
  | Obj fields => Some (own "0" fields)
  | _ => Some Undefined
  end.

(** The object [processResponse] returns. *)
Record Processed : Type := mkProcessed {
  content : Js;
  model : string;
  usage : Js
}.

(** The [usage] object of the Hugging Face case. *)
Definition noUsage : Js :=
  Obj [("prompt_tokens", Num 0); ("completion_tokens", Num 0);
       ("total_tokens", Num 0)].

(** [processResponse(model, response)]; [None] when it throws. *)
Definition processResponse (m : Router.Model) (response : Js)
  : option Processed :=
  if String.eqb (name m) "Hugging Face Hub" then
    match first response with
    | None => None
    | Some element =>
        Some (mkProcessed (or (optional "generated_text" element) (Str ""))
                (name m) noUsage)
    end
  else
    match field "choices" response with
    | None => None
    | Some choices =>
        match first choices with
        | None => None
        | Some choice =>
            Some (mkProcessed
                    (or (optional "text" choice)
                        (or (optional "content" (optional "message" choice))
                            (Str "")))
                    (name m)
                    (or (optional "usage" response) (Obj [])))
        end
    end.

(** How [await axios.post(...)] ends: with a response, whose [data] is
    read, or with an error. *)
Inductive AxiosResult : Type :=
| Resolved (data : Js)
| Failed.

(** The [try] block of [generateContent] for the model [m]: the result it
    returns, or [None] when it ends in the [catch]. *)
Definition tryBlock (m : Router.Model) (res : AxiosResult) : option Processed :=
  match res with
  | Resolved data => processResponse m data
  | Failed => None
  end.

(** The environment of [generateContent] in which the request to the model
    under [key] ends as [axios] says; the model objects are those of
    [models], whose names no method changes. *)
Definition envOf (fallback : Registry -> string -> Fallback)
           (axios : list string -> string -> AxiosResult)
           (models : Registry) : Env :=
  mkEnv fallback
    (fun attempts key =>
       match lookup_model key models with
       | Some e =>
           match tryBlock e.2 (axios attempts key) with
           | Some _ => true
           | None => false
           end
       | None => false
       end).

(** The fields of [options] that [prepareRequestData] reads. *)
Record RequestOptions : Type := mkRequestOptions {
  maxTokens : option Z;
  temperature : option Q;
  top_p : option Q;
  stream : option bool
}.

(** A sampling parameter of a request: the number the caller gave, or what
    the configuration of the model has. *)
Inductive Sampling : Type :=
| FromOptions (q : Q)
| FromConfig (literal : option string).

(** [options.x || model.config.x] for a sampling parameter and for a
    token limit. *)
Definition sampling (given : option Q) (configured : option string) : Sampling :=
  match given with
  | Some q => if Qeq_bool q 0 then FromConfig configured else FromOptions q
  | None => FromConfig configured
  end.

Definition limit (given configured : option Z) : option Z :=
  match given with
  | Some z => if z =? 0 then configured else Some z
  | None => configured
  end.

(** The two shapes [prepareRequestData] returns: [baseRequest], and the
    [{ inputs, parameters }] of the Hugging Face case. *)
Inductive Request : Type :=
| Completion (model : option string) (prompt : string) (max_tokens : option Z)
             (temperature top_p : Sampling) (stream : bool)
| Generation (inputs : string) (max_new_tokens : option Z)
             (temperature : Sampling) (do_sample : bool) (top_p : Sampling).

(** [prepareRequestData(model, prompt, options)] *)
Definition prepareRequestData (m : Router.Model) (prompt : string)
           (options : RequestOptions) : Request :=
  let max_tokens := limit (maxTokens options) (Router.max_tokens (config m)) in
  let temperature :=
    sampling (temperature options) (Router.temperature (config m)) in
  let top_p := sampling (top_p options) (Router.top_p (config m)) in
  let stream := default false (stream options) in
  if String.eqb (name m) "Hugging Face Hub"
  then Generation prompt max_tokens temperature true top_p
  else Completion (Router.model (config m)) prompt max_tokens temperature top_p stream.

(** [options] without the fields whose value is falsy. *)
Definition given (options : RequestOptions) : RequestOptions :=
  mkRequestOptions
    (match maxTokens options with
     | Some z => if z =? 0 then None else Some z
     | None => None
     end)
    (match temperature options with
     | Some q => if Qeq_bool q 0 then None else Some q
     | None => None
     end)
    (match top_p options with
     | Some q => if Qeq_bool q 0 then None else Some q
     | None => None
     end)
    (match stream options with
     | Some true => Some true
     | _ => None
     end).

End Wire.

(** ** Sample values *)

Module Samples.
Import Router.

(** The model object [initializeModels] stores under [hfHub]. *)
Definition hfHubModel : Model :=
  match lookup_model "hfHub" (initializeModels 0) with
  | Some e => e.2
  | None => Scenarios.provider "hfHub" [] true
  end.

(** The model object [initializeModels] stores under [gemma3]. *)
Definition gemma3Model : Model :=
  match lookup_model "gemma3" (initializeModels 0) with
  | Some e => e.2
  | None => Scenarios.provider "gemma3" [] true
  end.

(** [m] with a configuration that has lost [max_new_tokens] and
    [do_sample]. *)
Definition withoutNewTokens (m : Model) : Model :=
  mkModel (name m) (endpoint m) (healthEndpoint m)
    (mkConfig (model (config m)) (max_tokens (config m))
       (temperature (config m)) (top_p (config m)) None None)
    (capabilities m) (loadBalancer m) (isHealthy m) (lastHealthCheck m).

(** The registry of [initializeModels] with a second endpoint in the
    rotation of [gemma3]. *)
Definition twoEndpoints : Registry :=
  update_model "gemma3"
    (set_loadBalancer
       (LoadBalancer.new ["http://gemma3:8000"; "http://gemma3-b:8000"]))
    (initializeModels 0).

(** An [options] object without any of the fields [prepareRequestData]
    reads. *)
Definition noOptions : Wire.RequestOptions :=
  Wire.mkRequestOptions None None None None.

End Samples.

(** ** The other routes of the router *)

Module Routes.
Import Router.

(** An entry of [models] in the answer of [GET /health]: [name], [healthy]
    and [lastCheck], the last as the timestamp that [toISOString]
    renders. *)
Record ModelHealth : Type := mkModelHealth {
  health_name : string;
  healthy : bool;
  lastCheck : Z
}.

(** The answer of [GET /health]: [status] and, in the order of
    [Object.keys(this.models)], the entries of [models]. *)
Definition health (models : Registry) : string * list (string * ModelHealth) :=
  ("healthy",
   map (fun e : Entry =>
          (e.1, mkModelHealth (name e.2) (isHealthy e.2) (lastHealthCheck e.2)))
       models).

(** An element of [models] in the answer of [GET /models]. *)
Record ModelInfo : Type := mkModelInfo {
  id : string;
  info_name : string;
  info_capabilities : list string;
  info_healthy : bool
}.

(** The answer of [GET /models]. *)
Definition models (registry : Registry) : list ModelInfo :=
  map (fun e : Entry =>
         mkModelInfo e.1 (name e.2) (capabilities e.2) (isHealthy e.2))
      registry.

(** The field [prompts] of the body of [POST /batch/generate]: absent or
    not an array, or an array of prompts. *)
Inductive Prompts : Type :=
| NotAnArray
| PromptList (prompts : list string).

(** What the handler of [POST /batch/generate] does before it waits: it
    answers, or it starts one call of [generateContent] per prompt, in
    order, all with the same options. *)
Inductive Batch : Type :=
| BatchAnswer (r : Http.Response)
| BatchCalls (calls : list (string * Options)).

Definition batchGenerate (prompts : Prompts) (options : Options) : Batch :=
  match prompts with
  | NotAnArray =>
      BatchAnswer (Http.ErrorJson 400 "Prompts array is required" None)
  | PromptList l =>
      if (length l =? 0)%nat then
        BatchAnswer (Http.ErrorJson 400 "Prompts array is required" None)
      else if (10 <? length l)%nat then
        BatchAnswer (Http.ErrorJson 400 "Maximum 10 prompts per batch" None)
      else BatchCalls (map (fun prompt => (prompt, options)) l)
  end.

End Routes.

(** ** The RunPod proxy of the implementation guide *)

Module RunPodProxy.
Import Wire.

(** The [data] of a status response, as far as the proxy reads it. *)
Record Job : Type := mkJob {
  output : Js;
  executionTime : Js;
  error : option string
}.

(** How one [await axios.get(.../status/jobId)] ends: with a response whose
    data has [status], or with an error that may carry the status of a
    response. *)
Inductive Poll : Type :=
| Answered (status : string) (data : Job)
| Refused (status : option Z).

(** How [pollForCompletion] ends. *)
Inductive Polled : Type :=
| Completed (data : Job)
| JobFailed (message : string)
| JobTimeout
| PollError (status : option Z).

(** The text of [`Job failed: ${response.data.error}`]. *)
Definition jobFailedMessage (data : Job) : string :=
  String.append "Job failed: " (default "undefined" (error data)).

(** The loop of [pollForCompletion] from the iteration [attempt], with
    [remaining] iterations to go: how it ends, and how many status requests
    and how many waits of [interval] it has made. *)
Fixpoint pollLoop (poll : nat -> Poll) (remaining attempt : nat)
  : Polled * nat * nat :=
  match remaining with
  | O => (JobTimeout, O, O)
  | S remaining' =>
      match poll attempt with
      | Refused status => (PollError status, 1%nat, O)
      | Answered status data =>
          if String.eqb status "COMPLETED" then (Completed data, 1%nat, O)
          else if String.eqb status "FAILED"
          then (JobFailed (jobFailedMessage data), 1%nat, O)
          else
            let '(end_, requests, waits) :=
              pollLoop poll remaining' (S attempt) in
            (end_, S requests, S waits)
      end
  end.

(** [pollForCompletion(jobId, maxAttempts, interval)] for an integer
    [maxAttempts]; [poll i] is what the request of iteration [i] gets. *)
Definition pollForCompletion (poll : nat -> Poll) (maxAttempts : Z)
  : Polled * nat * nat :=
  pollLoop poll (Z.to_nat maxAttempts) O.

(** How the loop ends on a poll that ends it. *)
Definition ending (p : Poll) : Polled :=
  match p with
  | Refused status => PollError status
  | Answered status data =>
      if String.eqb status "COMPLETED" then Completed data
      else JobFailed (jobFailedMessage data)
  end.

(** The status of a poll is neither COMPLETED nor FAILED. *)
Definition pending (p : Poll) : Prop :=
  match p with
  | Answered status _ => status <> "COMPLETED" /\ status <> "FAILED"
  | Refused _ => False
  end.

(** The three environment variables of [endpointMap]. *)
Record Endpoints : Type := mkEndpoints {
  RUNPOD_MISTRAL_ENDPOINT : option string;
  RUNPOD_LLAMA_ENDPOINT : option string;
  RUNPOD_FALCON_ENDPOINT : option string
}.

(** The own properties of the object [endpointMap]: the value of the
    property called [model], [undefined] for an unset variable and for a
    name that is none of the three. *)
Definition endpointMap (env : Endpoints) (model : string) : option string :=
  if String.eqb model "mistral-7b" then RUNPOD_MISTRAL_ENDPOINT env
  else if String.eqb model "llama2-13b" then RUNPOD_LLAMA_ENDPOINT env
  else if String.eqb model "falcon-40b" then RUNPOD_FALCON_ENDPOINT env
  else None.

(** A value of [endpointMap[model]] that passes the test [!endpointId]:
    the value of a variable that is set and not empty, or, [endpointMap]
    being an object literal, the member of [Object.prototype] called
    [model]. *)
Inductive EndpointId : Type :=
| Configured (id : string)
| Member (name : string).

(** [endpointMap[model]] under the test [!endpointId]: [None] when the
    test sends the 400. *)
Definition endpointId (env : Endpoints) (model : string)
  : option EndpointId :=
  match endpointMap env model with
  | Some id => if String.eqb id "" then None else Some (Configured id)
  | None => if Router.inherited model then Some (Member model) else None
  end.

(** How the [axios.post] that starts the job ends. *)
Inductive Started : Type :=
| JobId (id : Js)
| NotStarted (status : option Z).

(** The answer of [POST /generate]: the JSON of a finished job, or an
    error with its status, its [error] and, where the proxy itself wrote
    it, its [message]. *)
Inductive Answer : Type :=
| Content (content : Js) (model : string) (endpoint : EndpointId)
          (jobId : Js) (execution_time : Js)
| Error (status : Z) (error : string) (message : option string).

(** The handler of [POST /generate]: the answer and the number of requests
    made to RunPod. The body gives [model] (default ['mistral-7b']); its
    [prompt] goes into the input of the job unread. *)
Definition generate (env : Endpoints) (model : option string)
           (start : Started) (poll : nat -> Poll) : Answer * nat :=
  let model := default "mistral-7b" model in
  match endpointId env model with
  | None => (Error 400 "Model not available on RunPod" None, O)
  | Some endpoint =>
      match start with
      | NotStarted status =>
          (Error (Http.errorStatus status) "Failed to generate content" None,
           1%nat)
      | JobId jobId =>
          match pollForCompletion poll 60 with
          | (Completed data, requests, _) =>
              (Content (output data) model endpoint jobId
                 (executionTime data), S requests)
          | (PollError status, requests, _) =>
              (Error (Http.errorStatus status) "Failed to generate content"
                 None,
               S requests)
          | (JobFailed message, requests, _) =>
              (Error 500 "Failed to generate content" (Some message),
               S requests)
          | (JobTimeout, requests, _) =>
              (Error 500 "Failed to generate content" (Some "Job timeout"),
               S requests)
          end
      end
  end.

End RunPodProxy.

(** ** The other routes of the RunPod proxy server *)

Module RunPodServer.
Import Http.

(** The routes of [server.js] that call RunPod. *)
Inductive Route : Type :=
| Endpoints
| Generate
| Chat
| Image
| Status.

(** An element of [messages] that the callback of [messages.map] can
    read: the text the template literal makes of its [role] and of its
    [content], each absent ([undefined]) when the element has no such
    field. *)
Record Message : Type := mkMessage {
  role : option string;
  content : option string
}.

(** The field [messages] of a body: an array, or anything else. An element
    is [None] when the callback [m => `${m.role}: ${m.content}`] throws on
    it: the element is [null], or its [role] or [content] is an object that
    has no primitive value. *)
Inductive Messages : Type :=
| NoArray
| MessageList (l : list (option Message)).

(** The elements of an array of messages when the callback throws on none
    of them. *)
Fixpoint elements (l : list (option Message)) : option (list Message) :=
  match l with
  | [] => Some []
  | None :: _ => None
  | Some m :: rest =>
      match elements rest with
      | Some ms => Some (m :: ms)
      | None => None
      end
  end.

(** What the handlers read of a request: the fields [prompt], [endpointId]
    and [messages] of the body, and [endpointId] of the query string; but
    for [messages], each is a string or absent. *)
Record Request : Type := mkRequest {
  prompt : option string;
  endpointId : option string;
  messages : Messages;
  queryEndpointId : option string
}.

Definition newline : string := String (Ascii.ascii_of_nat 10) EmptyString.

(** [`${m.role}: ${m.content}`] *)
Definition line (m : Message) : string :=
  String.append (default "undefined" (role m))
    (String.append ": " (default "undefined" (content m))).

(** [messages.map(m => `${m.role}: ${m.content}`).join('\n')] *)
Definition chatPrompt (l : list Message) : string :=
  String.concat newline (map line l).

(** The end of every handler: the call of RunPod and the answer made of
    what it gives: 200, or [error.response?.status || 500]. *)
Definition call (upstream : RunPod.Upstream) : Z * option string * bool :=
  match upstream with
  | RunPod.Data => (200, None, true)
  | RunPod.Failure st => (errorStatus st, None, true)
  end.

(** [GET /endpoints] *)
Definition endpoints (apiKey : option string) (upstream : RunPod.Upstream)
  : Z * option string * bool :=
  if falsy apiKey then (503, Some "RunPod API key not configured", false)
  else call upstream.

(** [POST /chat]. When [messages.map] throws, the [catch] answers before
    RunPod is called; the error has no response, so the status is 500. *)
Definition chat (apiKey : option string) (upstream : RunPod.Upstream)
           (r : Request) : Z * option string * bool :=
  if falsy apiKey then (503, Some "RunPod API key not configured", false)
  else
    match messages r with
    | NoArray => (400, Some "Messages array is required", false)
    | MessageList l =>
        if falsy (endpointId r)
        then (400, Some "RunPod endpoint ID is required", false)
        else
          match elements l with
          | None => (errorStatus None, None, false)
          | Some _ => call upstream
          end
    end.

(** [POST /image] *)
Definition image (apiKey : option string) (upstream : RunPod.Upstream)
           (r : Request) : Z * option string * bool :=
  if falsy apiKey then (503, Some "RunPod API key not configured", false)
  else if falsy (prompt r) then (400, Some "Prompt is required", false)
  else if falsy (endpointId r)
  then (400, Some "RunPod endpoint ID is required", false)
  else call upstream.

(** [GET /status/:jobId] *)
Definition status (apiKey : option string) (upstream : RunPod.Upstream)
           (r : Request) : Z * option string * bool :=
  if falsy apiKey then (503, Some "RunPod API key not configured", false)
  else if falsy (queryEndpointId r)
  then (400, Some "Endpoint ID is required as query parameter", false)
  else call upstream.

(** The handler of a route: the status and the error of its answer, and
    whether it called RunPod. *)
Definition handle (route : Route) (apiKey : option string)
           (upstream : RunPod.Upstream) (r : Request)
  : Z * option string * bool :=
  match route with
  | Endpoints => endpoints apiKey upstream
  | Generate =>
      RunPod.generate apiKey upstream (RunPod.mkBody (prompt r) (endpointId r))
  | Chat => chat apiKey upstream r
  | Image => image apiKey upstream r
  | Status => status apiKey upstream r
  end.



End RunPodServer.

(** ** The OpenRouter proxy: [POST /route/:provider] *)

Module OpenRouter.
Import Wire.

(** The [switch (provider)] of the handler. *)
Definition routeModel (provider : string) : option string :=
  if String.eqb provider "openai" then Some "openai/gpt-4"
  else if String.eqb provider "anthropic" then Some "anthropic/claude-3-sonnet"
  else if String.eqb provider "google" then Some "google/gemini-pro"
  else None.

(** [options] of [const { prompt, ...options } = req.body]: the fields of
    the body but [prompt]. *)
Definition options (body : list (string * Js)) : list (string * Js) :=
  filter (fun kv : string * Js => kv.1 <> "prompt") body.

(** The fields of the object sent to OpenRouter,
    [{ model, messages: [{ role: 'user', content: prompt }], ...options }],
    in the order in which a field is looked up: the fields spread last
    come first. *)
Definition upstreamBody (model : string) (body : list (string * Js))
  : list (string * Js) :=
  options body
  ++ [("model", Str model);
      ("messages",
       Arr [Obj [("role", Str "user"); ("content", own "prompt" body)]])].

(** How the request to OpenRouter ends. *)
Inductive Upstream : Type :=
| Replied (data : Js)
| Failed (status : option Z).

(** [response.data.choices[0].message.content]; [None] when one of the
    reads throws. *)
Definition reply (data : Js) : option Js :=
  match field "choices" data with
  | None => None
  | Some choices =>
      match first choices with
      | None => None
      | Some choice =>
          match field "message" choice with
          | None => None
          | Some message => field "content" message
          end
      end
  end.

(** The answer of the handler and, when it called OpenRouter, what it
    sent. *)
Inductive Answer : Type :=
| Routed (provider model : string) (response usage : Js)
| RouteError (status : Z) (error : string).

Definition route (provider : string) (body : list (string * Js))
           (upstream : Upstream) : Answer * option (list (string * Js)) :=
  match routeModel provider with
  | None => (RouteError 400 "Invalid provider", None)
  | Some model =>
      let sent := upstreamBody model body in
      match upstream with
      | Failed status =>
          (RouteError (Http.errorStatus status)
             (String.append provider " API error"), Some sent)
      | Replied data =>
          match reply data with
          | Some response =>
              (Routed provider model response (optional "usage" data),
               Some sent)
          | None =>
              (RouteError 500 (String.append provider " API error"), Some sent)
          end
      end
  end.

End OpenRouter.

(** * Properties *)

(** ** Round-robin load balancer *)

Section RoundRobin.
Import LoadBalancer.
Local Open Scope nat_scope.

Variable eps : list string.
Let n := length eps.
Hypothesis nonempty : 0 < n.

Lemma getNextEndpoint_at (i : nat) :
  getNextEndpoint (mkLB eps (Idx i))
  = (eps !! i, mkLB eps (Idx ((i + 1) `mod` n))).
Proof.
  unfold getNextEndpoint, currentEndpoint, nextIndex; simpl.
  fold n. destruct n eqn:E; [lia | reflexivity].
Qed.

(** From an index in range, [k] calls walk the list cyclically. *)
Lemma calls_at (k : nat) : forall i, i < n ->
  calls k (mkLB eps (Idx i))
  = ((fun j => eps !! ((i + j) `mod` n)) <$> seq 0 k,
     mkLB eps (Idx ((i + k) `mod` n))).
Proof.
  induction k as [|k IH]; intros i Hi.
  - simpl. rewrite Nat.add_0_r, Nat.mod_small by lia. reflexivity.
  - cbn [calls]. rewrite getNextEndpoint_at.
    rewrite IH by (apply Nat.mod_upper_bound; lia).
    f_equal.
    + cbn [seq fmap list_fmap]. f_equal.
      * rewrite Nat.add_0_r, Nat.mod_small by lia. reflexivity.
      * rewrite <- fmap_S_seq, <- list_fmap_compose.
        apply list_fmap_ext. intros _ j _. simpl.
        rewrite Nat.Div0.add_mod_idemp_l. do 2 f_equal. lia.
    + rewrite Nat.Div0.add_mod_idemp_l. do 3 f_equal. lia.
Qed.

Lemma lookup_seq_all (l : list string) :
  (fun j => l !! j) <$> seq 0 (length l) = Some <$> l.
Proof.
  induction l as [|x l IH]; [reflexivity|].
  cbn [length seq fmap list_fmap]. f_equal.
  rewrite <- fmap_S_seq, <- list_fmap_compose. exact IH.
Qed.

(** C9. For a balancer built on a non-empty list of [n] endpoints: the
    [k]-th call (counting from 1) returns [endpoints[(k-1) mod n]]; [n]
    consecutive calls return the endpoints once each, in order; after any
    number of calls [currentIndex] is a number in [0, n); and after [n]
    calls the balancer is the one it started as. *)
Theorem round_robin_cycle :
  (forall k, 1 <= k -> nth_call k (new eps) = eps !! ((k - 1) `mod` n))
  /\ (calls n (new eps)).1 = Some <$> eps
  /\ (forall k, exists i,
         currentIndex (calls k (new eps)).2 = Idx i /\ i < n)
  /\ (calls n (new eps)).2 = new eps.
Proof.
  unfold new. repeat split.
  - intros k Hk. unfold nth_call, before_call.
    rewrite calls_at by exact nonempty. cbn [snd].
    rewrite getNextEndpoint_at. reflexivity.
  - rewrite calls_at by exact nonempty. cbn [fst].
    rewrite <- lookup_seq_all. fold n.
    apply list_fmap_ext. intros p j Hj. simpl.
    apply lookup_seq in Hj as [-> Hj]. rewrite Nat.mod_small by lia.
    reflexivity.
  - intros k. rewrite calls_at by exact nonempty. cbn [snd currentIndex].
    eexists; split; [reflexivity|]. apply Nat.mod_upper_bound. lia.
  - rewrite calls_at by exact nonempty. cbn [snd].
    rewrite Nat.add_0_l, Nat.Div0.mod_same. reflexivity.
Qed.

End RoundRobin.

Lemma round_robin_cycle_witness :
  let eps := ["http://a:8000"; "http://b:8000"; "http://c:8000"] in
  (0 < length eps)%nat
  /\ LoadBalancer.nth_call 5 (LoadBalancer.new eps) = Some "http://b:8000"
  /\ (LoadBalancer.calls 3 (LoadBalancer.new eps)).1 = Some <$> eps.
Proof.
  intros eps.
  assert (H : (0 < length eps)%nat) by (simpl; lia).
  split; [exact H|].
  destruct (round_robin_cycle eps H) as (Hk & Hall & _ & _).
  split; [exact (Hk 5%nat ltac:(lia)) | exact Hall].
Defined.

(** ** Selector *)

Section Selector.
Import Router Scenarios.

Variables (type prompt : string).

Lemma score_base (key : string) (m : Model) : 5 <= score key m type prompt.
Proof. unfold score. repeat case_match; lia. Qed.

Lemma first_best_bound (seen : Registry) (b e : Entry) :
  first_best type prompt seen b -> e ∈ seen -> isHealthy e.2 = true ->
  score e.1 e.2 type prompt <= score b.1 b.2 type prompt.
Proof.
  intros (before & after & -> & Hb & Hlt & Hle) Hin He.
  apply elem_of_app in Hin as [Hin | Hin].
  - specialize (Hlt e Hin He). lia.
  - apply elem_of_cons in Hin as [-> | Hin]; [lia | auto].
Qed.

Lemma first_best_snoc (seen : Registry) (b e : Entry) :
  first_best type prompt seen b ->
  (isHealthy e.2 = true ->
   score e.1 e.2 type prompt <= score b.1 b.2 type prompt) ->
  first_best type prompt (seen ++ [e]) b.
Proof.
  intros (before & after & -> & Hb & Hlt & Hle) He.
  exists before, (after ++ [e]). repeat split; auto.
  - rewrite <- app_assoc. reflexivity.
  - intros e' Hin. apply elem_of_app in Hin as [Hin | Hin]; [auto|].
    apply list_elem_of_singleton in Hin as ->. exact He.
Qed.

Lemma select_step_inv (seen : Registry) (acc : option Entry * Z) (e : Entry) :
  loop_inv type prompt seen acc ->
  loop_inv type prompt (seen ++ [e]) (select_step type prompt acc e).
Proof.
  destruct acc as [best bestScore]. unfold loop_inv, select_step. cbn [fst snd].
  intros Hinv. destruct (isHealthy e.2) eqn:He; cbn [negb].
  - destruct (Z.gtb_spec (score e.1 e.2 type prompt) bestScore) as [Hgt | Hle];
      cbn [fst snd].
    + split; [reflexivity|]. exists seen, []. repeat split; auto.
      * intros e' Hin He'. destruct best as [b|].
        -- destruct Hinv as [-> Hb].
           pose proof (first_best_bound _ _ _ Hb Hin He'). lia.
        -- destruct Hinv as [_ Hdown]. rewrite (Hdown e' Hin) in He'. discriminate.
      * intros e' Hin. apply elem_of_nil in Hin as [].
    + destruct best as [b|].
      * destruct Hinv as [-> Hb]. split; [reflexivity|].
        apply first_best_snoc; auto.
      * destruct Hinv as [-> _]. pose proof (score_base e.1 e.2). lia.
  - destruct best as [b|].
    + destruct Hinv as [-> Hb]. split; [reflexivity|].
      apply first_best_snoc; auto. intros He'. rewrite He in He'. discriminate.
    + destruct Hinv as [-> Hdown]. split; [reflexivity|].
      intros e' Hin. apply elem_of_app in Hin as [Hin | Hin]; [auto|].
      apply list_elem_of_singleton in Hin as ->. exact He.
Qed.

Lemma foldl_select_inv (rest : Registry) :
  forall seen acc,
    loop_inv type prompt seen acc ->
    loop_inv type prompt (seen ++ rest) (foldl (select_step type prompt) acc rest).
Proof.
  induction rest as [|e rest IH]; intros seen acc Hinv; cbn [foldl].
  - rewrite app_nil_r. exact Hinv.
  - replace (seen ++ e :: rest) with ((seen ++ [e]) ++ rest)
      by (rewrite <- app_assoc; reflexivity).
    apply IH, select_step_inv, Hinv.
Qed.

Lemma select_loop_inv (models : Registry) :
  loop_inv type prompt models (select_loop type prompt models).
Proof.
  apply (foldl_select_inv models [] (None, 0)).
  split; [reflexivity|]. intros e Hin. apply elem_of_nil in Hin as [].
Qed.

(** With a healthy entry in the registry the loop ends on the first entry
    of the highest score, and that is what the selector returns. *)
Lemma select_some_healthy (models : Registry) :
  (exists e, e ∈ models /\ isHealthy e.2 = true) ->
  exists e, selectOptimalModel models type prompt = Some e
            /\ first_best type prompt models e.
Proof.
  intros (h & Hin & Hh). unfold selectOptimalModel.
  pose proof (select_loop_inv models) as Hinv. unfold loop_inv in Hinv.
  destruct (select_loop type prompt models).1 as [e|].
  - exists e. tauto.
  - destruct Hinv as [_ Hdown]. rewrite (Hdown h Hin) in Hh. discriminate.
Qed.

(** With no healthy entry the loop leaves [bestModel] at [null]. *)
Lemma select_none_healthy (models : Registry) :
  all_down models ->
  selectOptimalModel models type prompt = lookup_model "gemma3" models.
Proof.
  intros Hdown. unfold selectOptimalModel.
  pose proof (select_loop_inv models) as Hinv. unfold loop_inv in Hinv.
  destruct (select_loop type prompt models).1 as [e|]; [|reflexivity].
  destruct Hinv as [_ (before & after & -> & He & _)].
  rewrite Hdown in He; [discriminate|]. apply elem_of_app. right. left.
Qed.

Lemma first_best_elem (models : Registry) (e : Entry) :
  first_best type prompt models e -> e ∈ models /\ isHealthy e.2 = true.
Proof.
  intros (before & after & -> & He & _). split; [|exact He].
  apply elem_of_app. right. left.
Qed.

End Selector.

Lemma lookup_model_elem (key : string) (models : Router.Registry) (e : Router.Entry) :
  Router.lookup_model key models = Some e -> e ∈ models /\ e.1 = key.
Proof.
  induction models as [|[k m] models IH]; cbn [Router.lookup_model]; [discriminate|].
  destruct (String.eqb_spec k key) as [-> | Hne].
  - intros [= <-]. split; [left | reflexivity].
  - intros H. destruct (IH H). split; [right|]; assumption.
Qed.

Lemma select_elem (models : Router.Registry) (type prompt : string) (e : Router.Entry) :
  Router.selectOptimalModel models type prompt = Some e -> e ∈ models.
Proof.
  unfold Router.selectOptimalModel.
  pose proof (select_loop_inv type prompt models) as Hinv.
  unfold Scenarios.loop_inv in Hinv.
  destruct (Router.select_loop type prompt models).1 as [b|].
  - intros [= <-]. destruct Hinv as [_ Hb].
    apply (first_best_elem type prompt) in Hb. tauto.
  - intros H. apply lookup_model_elem in H. tauto.
Qed.

(** C1 (as the code has it). Whenever at least one registered provider is
    healthy, [selectOptimalModel] returns a registered provider whose
    [isHealthy] is true; when none is healthy it returns the default entry
    [this.models.gemma3], whatever its flag. *)
Theorem select_healthy_if_any
  (models : Router.Registry) (type prompt : string) :
  ((exists e, e ∈ models /\ Router.isHealthy e.2 = true) ->
   exists e, Router.selectOptimalModel models type prompt = Some e
             /\ e ∈ models /\ Router.isHealthy e.2 = true)
  /\ (Scenarios.all_down models ->
      Router.selectOptimalModel models type prompt
      = Router.lookup_model "gemma3" models).
Proof.
  split.
  - intros H. destruct (select_some_healthy type prompt models H) as (e & Hsel & Hb).
    exists e. split; [exact Hsel|]. exact (first_best_elem _ _ _ _ Hb).
  - apply select_none_healthy.
Qed.

Lemma select_healthy_if_any_witness :
  (exists e, Router.selectOptimalModel Scenarios.hfHubRejected "analysis" "hello" = Some e
             /\ e ∈ Scenarios.hfHubRejected /\ Router.isHealthy e.2 = true)
  /\ Router.selectOptimalModel Scenarios.allRejected "analysis" "hello"
     = Router.lookup_model "gemma3" Scenarios.allRejected.
Proof.
  split.
  - apply (select_healthy_if_any Scenarios.hfHubRejected "analysis" "hello").
    eexists. split; [left | reflexivity].
  - apply (select_healthy_if_any Scenarios.allRejected "analysis" "hello").
    intros e He. vm_compute in He.
    repeat (apply elem_of_cons in He as [-> | He]; [reflexivity|]).
    apply elem_of_nil in He as [].
Defined.

(** C1, as stated, fails when every provider is unhealthy: the selector
    then returns the entry [gemma3], whose flag is false. *)
Lemma select_returns_unhealthy_default :
  exists e, Router.selectOptimalModel Scenarios.allRejected "general" "hello" = Some e
            /\ e.1 = "gemma3" /\ Router.isHealthy e.2 = false.
Proof. eexists. repeat split. Qed.

(** C2 (as the code has it). With a healthy provider registered,
    [selectOptimalModel] returns the highest-scoring healthy provider, and
    among the providers of that score the one registered first: a
    descriptor has no priority that could break the tie. *)
Theorem select_first_of_best
  (models : Router.Registry) (type prompt : string) :
  (exists e, e ∈ models /\ Router.isHealthy e.2 = true) ->
  exists e, Router.selectOptimalModel models type prompt = Some e
            /\ e ∈ models /\ Router.isHealthy e.2 = true
            /\ (forall e', e' ∈ models -> Router.isHealthy e'.2 = true ->
                  Router.score e'.1 e'.2 type prompt
                  <= Router.score e.1 e.2 type prompt)
            /\ Scenarios.first_best type prompt models e.
Proof.
  intros Hsome.
  destruct (select_some_healthy type prompt models Hsome) as (e & Hsel & Hbest).
  exists e. split; [exact Hsel|].
  destruct (first_best_elem _ _ _ _ Hbest) as [Hin He].
  repeat split; auto.
  intros e' Hin' He'. exact (first_best_bound _ _ _ _ _ Hbest Hin' He').
Qed.

Lemma select_first_of_best_witness :
  exists e, Router.selectOptimalModel Scenarios.threeProviders "conversation" "hello" = Some e
            /\ Scenarios.first_best "conversation" "hello" Scenarios.threeProviders e.
Proof.
  destruct (select_first_of_best Scenarios.threeProviders "conversation" "hello")
    as (e & Hsel & _ & _ & _ & Hbest).
  - eexists. split; [left | reflexivity].
  - exists e. split; [exact Hsel | exact Hbest].
Defined.

(** C2, as stated, fails on its own scenario: A and B both score 25 for a
    conversation request, and the selector returns A, registered first. *)
Lemma three_providers_select_A :
  (fst <$> Router.selectOptimalModel Scenarios.threeProviders "conversation" "hello")
  = Some "A"
  /\ Router.score "A" (Scenarios.provider "A" ["conversation"] true)
       "conversation" "hello" = 25
  /\ Router.score "B" (Scenarios.provider "B" ["conversation"; "analysis"] true)
       "conversation" "hello" = 25.
Proof. repeat split. Qed.

(** ** Dispatcher *)

Section Dispatcher.
Import Router Scenarios.

Lemma elem_of_update_model (key : string) (f : Model -> Model)
      (models : Registry) (e' : Entry) :
  e' ∈ update_model key f models <->
  exists e, e ∈ models
            /\ e' = if String.eqb e.1 key then (e.1, f e.2) else e.
Proof.
  unfold update_model. rewrite list_elem_of_fmap. split.
  - intros (e & -> & Hin). exists e. auto.
  - intros (e & Hin & ->). exists e. auto.
Qed.

(** An assignment that does not raise a flag keeps every key down. *)
Lemma down_update (key : string) (f : Model -> Model) (models : Registry) :
  (forall m, isHealthy (f m) = true -> isHealthy m = true) ->
  forall k, down models k -> down (update_model key f models) k.
Proof.
  intros Hf k Hdown e' Hin Hk.
  apply elem_of_update_model in Hin as (e & Hin & ->).
  destruct (String.eqb e.1 key); cbn [fst snd] in *.
  - destruct (isHealthy (f e.2)) eqn:He'; [|reflexivity].
    apply Hf in He'. rewrite (Hdown e Hin Hk) in He'. discriminate.
  - apply Hdown; assumption.
Qed.

Lemma up_update (key : string) (f : Model -> Model) (models : Registry) :
  (forall m, isHealthy (f m) = true -> isHealthy m = true) ->
  forall k, up (update_model key f models) k -> up models k.
Proof.
  intros Hf k (e' & Hin & Hk & He').
  apply elem_of_update_model in Hin as (e & Hin & ->). exists e.
  split; [exact Hin|].
  destruct (String.eqb e.1 key); cbn [fst snd] in *; auto.
Qed.

(** [selectedModel.isHealthy = false] puts the key down. *)
Lemma down_marked (key : string) (models : Registry) :
  down (update_model key (set_isHealthy false) models) key.
Proof.
  intros e' Hin Hk.
  apply elem_of_update_model in Hin as (e & Hin & ->).
  destruct (String.eqb_spec e.1 key); cbn [fst snd] in *;
    [reflexivity | contradiction].
Qed.

Lemma up_not_down (models : Registry) (k : string) :
  up models k -> down models k -> False.
Proof.
  intros (e & Hin & Hk & He) Hdown. rewrite (Hdown e Hin Hk) in He. discriminate.
Qed.

Lemma set_loadBalancer_flag lb (m : Model) :
  isHealthy (set_loadBalancer lb m) = true -> isHealthy m = true.
Proof. exact (fun H => H). Qed.

Lemma set_isHealthy_false_flag (m : Model) :
  isHealthy (set_isHealthy false m) = true -> isHealthy m = true.
Proof. discriminate. Qed.

Lemma selected_elem models options prompt (e : Entry) :
  selected models options prompt = Some e -> e ∈ models.
Proof.
  unfold selected.
  destruct (String.eqb (default "auto" (opt_model options)) "auto").
  - apply select_elem.
  - intros H. apply lookup_model_elem in H. tauto.
Qed.

(** One unfolding of [generateContent]. *)
Lemma generateContent_step env fuel models attempts prompt options :
  generateContent env (S fuel) models attempts prompt options
  = match selected models options prompt with
    | None =>
        let model := default "auto" (opt_model options) in
        if inherited model then
          match findFallbackModel env models model with
          | Found fallbackModel =>
              generateContent env fuel models attempts prompt
                (mkOptions (keyOf models fallbackModel) (opt_type options))
          | NotFound => (models, attempts, Thrown NoHealthyModels)
          | Raised => (models, attempts, Thrown FallbackFailed)
          end
        else (models, attempts, Thrown (ModelNotFound model))
    | Some (key, sel) =>
        if negb (isHealthy sel) then
          match findFallbackModel env models key with
          | Found fallbackModel =>
              generateContent env fuel models attempts prompt
                (mkOptions (keyOf models fallbackModel) (opt_type options))
          | NotFound => (models, attempts, Thrown NoHealthyModels)
          | Raised => (models, attempts, Thrown FallbackFailed)
          end
        else
          let models1 :=
            update_model key
              (set_loadBalancer
                 (LoadBalancer.getNextEndpoint (loadBalancer sel)).2) models in
          if post env attempts key then
            (models1, attempts ++ [key], Returned key)
          else
            let models2 := update_model key (set_isHealthy false) models1 in
            match findFallbackModel env models2 key with
            | Found fallbackModel =>
                generateContent env fuel models2 (attempts ++ [key]) prompt
                  (mkOptions (keyOf models2 fallbackModel) (opt_type options))
            | NotFound => (models2, attempts ++ [key], Thrown AllModelsUnavailable)
            | Raised => (models2, attempts ++ [key], Thrown FallbackFailed)
            end
    end.
Proof.
  cbn [generateContent]. unfold selected, property. cbv zeta.
  destruct (String.eqb_spec (default "auto" (opt_model options)) "auto")
    as [-> | _].
  - destruct (selectOptimalModel models _ prompt) as [[key sel]|]; reflexivity.
  - destruct (lookup_model _ models) as [[key sel]|]; [reflexivity|].
    destruct (inherited _); reflexivity.
Qed.

Lemma up_update_loadBalancer key lb (models : Registry) (k : string) :
  up models k -> up (update_model key (set_loadBalancer lb) models) k.
Proof.
  intros (e & Hin & Hk & He).
  exists (if String.eqb e.1 key then (e.1, set_loadBalancer lb e.2) else e).
  split; [apply elem_of_update_model; eauto|].
  destruct (String.eqb e.1 key); auto.
Qed.

Lemma run_ok_stop (models : Registry) (attempts : list string) (out : Outcome) :
  NoDup attempts -> (forall k, k ∈ attempts -> down models k) ->
  (forall k, out <> Returned k) ->
  run_ok models attempts (models, attempts, out).
Proof.
  intros Hnd Hdown Hout. unfold run_ok; cbn [fst snd]. repeat split; auto.
  - exists []. rewrite app_nil_r. split; [reflexivity|].
    intros k Hk. apply elem_of_nil in Hk as [].
  - destruct (Hout _ H).
  - destruct (Hout _ H).
Qed.

(** The invariant of the fallback recursion. *)
Lemma generateContent_ok (env : Env) (fuel : nat) :
  forall models attempts prompt options,
    NoDup attempts -> (forall k, k ∈ attempts -> down models k) ->
    run_ok models attempts
      (generateContent env fuel models attempts prompt options).
Proof.
  induction fuel as [|fuel IH]; intros models attempts prompt options Hnd Hdown.
  - apply run_ok_stop; auto; discriminate.
  - rewrite generateContent_step.
    destruct (selected models options prompt) as [[key sel]|] eqn:Hsel.
    2:{ cbv zeta. destruct (inherited _);
          [|apply run_ok_stop; auto; discriminate].
        destruct (findFallbackModel env models _);
          [apply IH; auto | apply run_ok_stop; auto; discriminate ..]. }
    apply selected_elem in Hsel.
    destruct (isHealthy sel) eqn:Hsel_up; cbn [negb].
    2:{ destruct (findFallbackModel env models key);
          [apply IH; auto | apply run_ok_stop; auto; discriminate ..]. }
    assert (Hup : up models key) by (exists (key, sel); auto).
    assert (Hfresh : key ∉ attempts)
      by (intros Hin; exact (up_not_down _ _ Hup (Hdown _ Hin))).
    assert (Hnd1 : NoDup (attempts ++ [key])).
    { apply NoDup_app. repeat split; auto.
      - intros k Hk Hk'. apply list_elem_of_singleton in Hk' as ->. auto.
      - apply NoDup_singleton. }
    set (lb := (LoadBalancer.getNextEndpoint (loadBalancer sel)).2).
    set (models1 := update_model key (set_loadBalancer lb) models).
    assert (Hdown1 : forall k, down models k -> down models1 k)
      by (apply down_update, set_loadBalancer_flag).
    cbv zeta. destruct (post env attempts key).
    + unfold run_ok; cbn [fst snd]. repeat split; auto.
      * exists [key]. split; [reflexivity|].
        intros k Hk. apply list_elem_of_singleton in Hk as ->. exact Hup.
      * intros k Hk Hne. apply elem_of_app in Hk as [Hk | Hk]; [auto|].
        apply list_elem_of_singleton in Hk as ->. congruence.
      * injection H as <-. apply up_update_loadBalancer, Hup.
      * injection H as <-. eauto.
    + set (models2 := update_model key (set_isHealthy false) models1).
      assert (Hdown2 : forall k, down models1 k -> down models2 k)
        by (apply down_update, set_isHealthy_false_flag).
      assert (Hpre : forall k, k ∈ attempts ++ [key] -> down models2 k).
      { intros k Hk. apply elem_of_app in Hk as [Hk | Hk]; [auto|].
        apply list_elem_of_singleton in Hk as ->. apply down_marked. }
      assert (Hup2 : forall k, up models2 k -> up models k).
      { intros k Hk.
        apply (up_update key _ _ (set_loadBalancer_flag lb)).
        apply (up_update key _ _ set_isHealthy_false_flag). exact Hk. }
      assert (Hgo : forall r, run_ok models2 (attempts ++ [key]) r ->
                              run_ok models attempts r).
      { intros r (Hr1 & (new & Hnew & Hnew_up) & Hr3 & Hr4 & Hr5).
        unfold run_ok. repeat split; auto.
        - exists (key :: new). split.
          + rewrite Hnew, <- app_assoc. reflexivity.
          + intros k Hk. apply elem_of_cons in Hk as [-> | Hk]; auto.
        - apply Hr5; assumption.
        - apply Hr5; assumption. }
      apply Hgo.
      destruct (findFallbackModel env models2 key);
        [apply IH; auto | apply run_ok_stop; auto; discriminate ..].
Qed.

(** With every provider down, a call changes nothing, attempts nothing and
    cannot return. *)
Lemma generateContent_all_down (env : Env) (fuel : nat) :
  forall models attempts prompt options,
    all_down models ->
    exists out,
      generateContent env fuel models attempts prompt options
      = (models, attempts, out)
      /\ (out = OutOfFuel \/ out = Thrown NoHealthyModels
          \/ out = Thrown FallbackFailed
          \/ exists m, out = Thrown (ModelNotFound m)).
Proof.
  induction fuel as [|fuel IH]; intros models attempts prompt options Hdown.
  - eexists. split; [reflexivity | auto].
  - rewrite generateContent_step.
    destruct (selected models options prompt) as [[key sel]|] eqn:Hsel.
    + apply selected_elem in Hsel. apply Hdown in Hsel. cbn [snd] in Hsel.
      rewrite Hsel. cbn [negb].
      destruct (findFallbackModel env models key);
        [apply IH; exact Hdown | eexists; split; [reflexivity | auto] ..].
    + cbv zeta. destruct (inherited _).
      * destruct (findFallbackModel env models _);
          [apply IH; exact Hdown | eexists; split; [reflexivity | auto] ..].
      * eexists. split; [reflexivity|]. do 3 right. eauto.
Qed.

Lemma lookup_model_registered (key : string) (models : Registry) :
  key ∈ keys models -> exists e, lookup_model key models = Some e.
Proof.
  unfold keys. induction models as [|[k m] models IH]; cbn [map fst lookup_model].
  - intros H. apply elem_of_nil in H as [].
  - intros H. destruct (String.eqb_spec k key) as [-> | Hne]; [eauto|].
    apply elem_of_cons in H as [-> | H]; [contradiction | auto].
Qed.

(** A request pinned to a registered key selects the entry of that key. *)
Lemma selected_pinned (models : Registry) (pin type prompt : string) :
  pin <> "auto" -> pin ∈ keys models ->
  exists m, selected models (pinned pin type) prompt = Some (pin, m)
            /\ (pin, m) ∈ models.
Proof.
  intros Hauto Hreg. unfold selected, pinned. simpl.
  destruct (String.eqb_spec pin "auto") as [Heq | _]; [contradiction|].
  destruct (lookup_model_registered pin models Hreg) as ([k m] & Hlook).
  destruct (lookup_model_elem _ _ _ Hlook) as [Hin Hk]. cbn [fst] in Hk. subst k.
  exists m. rewrite Hlook. auto.
Qed.

(** [nextHealthy] finds nothing when every provider is down, and a healthy
    registered provider other than the failed one when it finds one. *)
Lemma nextHealthy_all_down (models : Registry) (failed : string) :
  all_down models -> System.nextHealthy models failed = NotFound.
Proof.
  intros Hdown. unfold System.nextHealthy.
  destruct (filter _ models) as [|e l] eqn:Hf; [reflexivity|].
  assert (He : e ∈ filter (fun e : Entry => isHealthy e.2 = true /\ e.1 <> failed) models)
    by (rewrite Hf; left).
  apply list_elem_of_filter in He as [[He _] Hin].
  rewrite (Hdown e Hin) in He. discriminate.
Qed.

Lemma nextHealthy_some (models : Registry) (failed k : string) :
  System.nextHealthy models failed = Found k -> up models k /\ k <> failed.
Proof.
  unfold System.nextHealthy.
  destruct (filter _ models) as [|e l] eqn:Hf; [discriminate|].
  intros [= <-].
  assert (He : e ∈ filter (fun e : Entry => isHealthy e.2 = true /\ e.1 <> failed) models)
    by (rewrite Hf; left).
  apply list_elem_of_filter in He as [[He Hne] Hin].
  split; [exists e; auto | exact Hne].
Qed.

End Dispatcher.

(** C3. Within one request, with no health check running meanwhile: no
    provider is attempted twice; every provider whose attempt failed has
    [isHealthy] false from then on; every provider attempted was healthy
    when the request came in; and when the attempt of the selected provider
    fails, the registry the next selection starts from has that provider
    down, and whatever that selection is given, the calls that follow
    attempt other providers only. This holds whatever [findFallbackModel]
    returns. *)
Theorem no_double_attempt
  (env : Router.Env) (fuel : nat) (models : Router.Registry)
  (prompt : string) (options : Router.Options) :
  let r := Router.generateContent env fuel models [] prompt options in
  NoDup r.1.2
  /\ (forall k, k ∈ r.1.2 -> r.2 <> Router.Returned k -> Scenarios.down r.1.1 k)
  /\ (forall k, k ∈ r.1.2 -> Scenarios.up models k)
  /\ (forall key sel,
        Scenarios.selected models options prompt = Some (key, sel) ->
        Router.isHealthy sel = true ->
        Router.post env [] key = false ->
        let marked :=
          Router.update_model key (Router.set_isHealthy false)
            (Router.update_model key
               (Router.set_loadBalancer
                  (LoadBalancer.getNextEndpoint (Router.loadBalancer sel)).2)
               models) in
        Scenarios.down marked key
        /\ Router.generateContent env (S fuel) models [] prompt options
           = match Router.findFallbackModel env marked key with
             | Router.Found f =>
                 Router.generateContent env fuel marked [key] prompt
                   (Router.mkOptions (Router.keyOf marked f)
                      (Router.opt_type options))
             | Router.NotFound =>
                 (marked, [key], Router.Thrown Router.AllModelsUnavailable)
             | Router.Raised =>
                 (marked, [key], Router.Thrown Router.FallbackFailed)
             end
        /\ forall options',
             exists new,
               (Router.generateContent env fuel marked [key] prompt options').1.2
               = key :: new
               /\ ~ key ∈ new).
Proof.
  intros r.
  destruct (generateContent_ok env fuel models [] prompt options)
    as (Hnd & (new & Hnew & Hup) & _ & Hfailed & _).
  - apply NoDup_nil_2.
  - intros k Hk. apply elem_of_nil in Hk as [].
  - fold r in Hnd, Hnew, Hfailed. split; [exact Hnd|]. split; [exact Hfailed|].
    split; [intros k Hk; apply Hup; rewrite Hnew in Hk; exact Hk|].
    intros key sel Hsel Hsel_up Hpost marked.
    split; [apply down_marked|]. split.
    + rewrite generateContent_step, Hsel, Hsel_up. cbn [negb].
      cbv zeta. rewrite Hpost. reflexivity.
    + intros options'.
      destruct (generateContent_ok env fuel marked [key] prompt options')
        as (Hnd' & (new' & Hnew' & _) & _).
      * apply NoDup_singleton.
      * intros k Hk. apply list_elem_of_singleton in Hk as ->. apply down_marked.
      * exists new'. split; [exact Hnew'|].
        rewrite Hnew' in Hnd'. cbn [app] in Hnd'.
        apply NoDup_cons in Hnd' as [Hnotin _]. exact Hnotin.
Qed.

Lemma no_double_attempt_witness :
  let r := Router.generateContent Scenarios.failing 5 (Router.initializeModels 0) []
             "hello" (Scenarios.unpinned "conversation") in
  r.1.2 = ["chatterbox"; "gemma3"; "hfHub"]
  /\ NoDup r.1.2
  /\ (forall k, k ∈ r.1.2 -> r.2 <> Router.Returned k -> Scenarios.down r.1.1 k).
Proof.
  intros r. split; [reflexivity|].
  destruct (no_double_attempt Scenarios.failing 5 (Router.initializeModels 0)
              "hello" (Scenarios.unpinned "conversation")) as (Hnd & Hdown & _).
  split; [exact Hnd | exact Hdown].
Defined.

Section Pinned.
Import Router Scenarios.

Variable env : Env.

(** The first call of a request pinned to a registered provider that is
    down: no selection by score, the fallback of the pinned model or the
    error. *)
Lemma pinned_unhealthy_step (fuel : nat) (models : Registry)
      (attempts : list string) (prompt pin type : string) :
  pin <> "auto" -> pin ∈ keys models -> down models pin ->
  generateContent env (S fuel) models attempts prompt (pinned pin type)
  = match findFallbackModel env models pin with
    | Found f =>
        generateContent env fuel models attempts prompt
          (mkOptions (keyOf models f) (Some type))
    | NotFound => (models, attempts, Thrown NoHealthyModels)
    | Raised => (models, attempts, Thrown FallbackFailed)
    end.
Proof.
  intros Hauto Hreg Hdown. rewrite generateContent_step.
  destruct (selected_pinned models pin type prompt Hauto Hreg) as (m & -> & Hin).
  pose proof (Hdown (pin, m) Hin eq_refl) as Hm. cbn [snd] in Hm.
  rewrite Hm. reflexivity.
Qed.

Lemma keyOf_registered (models : Registry) (f : string) :
  f ∈ keys models -> keyOf models f = Some f.
Proof.
  intros Hin. unfold keyOf.
  destruct (existsb (String.eqb f) (keys models)) eqn:E; [reflexivity|].
  apply list_elem_of_In in Hin.
  assert (existsb (String.eqb f) (keys models) = true)
    by (apply existsb_exists; exists f; split; [exact Hin | apply String.eqb_refl]).
  congruence.
Qed.

End Pinned.

(** C4 (as the code has it). If every registered provider is unhealthy,
    [selectOptimalModel] does not fail: it returns the default entry
    [this.models.gemma3]. [generateContent] then sends no request to any
    provider and changes no state; it cannot return a result, and as soon
    as [findFallbackModel] reports no fallback it throws, with the message
    "No healthy models available" (or "Model ... not found" when nothing is
    selected); a call of [findFallbackModel] that throws ends the request
    with its own error. *)
Theorem all_down_no_network_call
  (env : Router.Env) (fuel : nat) (models : Router.Registry)
  (prompt : string) (options : Router.Options) :
  Scenarios.all_down models ->
  (forall type, Router.selectOptimalModel models type prompt
                = Router.lookup_model "gemma3" models)
  /\ (let r := Router.generateContent env fuel models [] prompt options in
      r.1.1 = models /\ r.1.2 = []
      /\ (r.2 = Router.OutOfFuel \/ r.2 = Router.Thrown Router.NoHealthyModels
          \/ r.2 = Router.Thrown Router.FallbackFailed
          \/ exists m, r.2 = Router.Thrown (Router.ModelNotFound m)))
  /\ ((forall key, Router.findFallbackModel env models key = Router.NotFound) ->
      exists e, Router.generateContent env (S fuel) models [] prompt options
                = (models, [], Router.Thrown e)
                /\ (e = Router.NoHealthyModels
                    \/ exists m, e = Router.ModelNotFound m)).
Proof.
  intros Hdown. repeat split.
  - intros type. apply select_none_healthy, Hdown.
  - destruct (generateContent_all_down env fuel models [] prompt options Hdown)
      as (out & -> & _). reflexivity.
  - destruct (generateContent_all_down env fuel models [] prompt options Hdown)
      as (out & -> & _). reflexivity.
  - destruct (generateContent_all_down env fuel models [] prompt options Hdown)
      as (out & -> & Hout). exact Hout.
  - intros Hnone. rewrite generateContent_step.
    destruct (Scenarios.selected models options prompt) as [[key sel]|] eqn:Hsel.
    + apply selected_elem in Hsel. apply Hdown in Hsel. cbn [snd] in Hsel.
      rewrite Hsel, Hnone. cbn [negb]. eauto.
    + cbv zeta. rewrite Hnone. destruct (Router.inherited _); eauto.
Qed.

Lemma all_rejected_down : Scenarios.all_down Scenarios.allRejected.
Proof.
  intros e He. vm_compute in He.
  repeat (apply elem_of_cons in He as [-> | He]; [reflexivity|]).
  apply elem_of_nil in He as [].
Defined.

Lemma all_down_no_network_call_witness :
  Scenarios.all_down Scenarios.allRejected
  /\ let r := Router.generateContent Scenarios.reliable 4 Scenarios.allRejected []
                "hello" (Scenarios.unpinned "conversation") in
     r.1.1 = Scenarios.allRejected /\ r.1.2 = [].
Proof.
  split; [exact all_rejected_down|].
  destruct (all_down_no_network_call Scenarios.reliable 4 Scenarios.allRejected
              "hello" (Scenarios.unpinned "conversation") all_rejected_down)
    as (_ & (H1 & H2 & _) & _).
  split; [exact H1 | exact H2].
Defined.

(** C4, as stated, fails in its first part: with every provider unhealthy
    the selector returns a provider instead of failing. The error of
    [generateContent] is then never the one it raises after failed
    attempts, "All models unavailable". *)
Lemma select_all_down_does_not_fail :
  (fst <$> Router.selectOptimalModel Scenarios.allRejected "conversation" "hello")
  = Some "gemma3"
  /\ (forall env fuel,
        (Router.generateContent env fuel Scenarios.allRejected [] "hello"
           (Scenarios.unpinned "conversation")).2
        <> Router.Thrown Router.AllModelsUnavailable)
  /\ (Router.generateContent Scenarios.reliable 4 Scenarios.allRejected []
        "hello" (Scenarios.unpinned "conversation")).2
     = Router.Thrown Router.NoHealthyModels.
Proof.
  split; [reflexivity|]. split; [|reflexivity].
  intros env fuel.
  destruct (generateContent_all_down env fuel Scenarios.allRejected [] "hello"
              (Scenarios.unpinned "conversation") all_rejected_down)
    as (out & -> & [-> | [-> | [-> | [m ->]]]]); discriminate.
Qed.

Lemma hfHub_rejected_down : Scenarios.down Scenarios.hfHubRejected "hfHub".
Proof.
  intros e He Hk. vm_compute in He.
  repeat (apply elem_of_cons in He as [-> | He];
          [first [reflexivity | discriminate Hk]|]).
  apply elem_of_nil in He as [].
Defined.

Lemma hfHub_registered : "hfHub" ∈ Router.keys Scenarios.hfHubRejected.
Proof. right. right. left. Defined.

(** C5. The claim fails on the class as it is written. For a pin that names
    a registered provider whose flag is false, [generateContent] calls
    [this.findFallbackModel(selectedModel)] and means to start again with
    the model it gets; the class defines no method of that name, so the
    call throws. Every such request ends with that error, with no provider
    contacted and the registry as it was, whatever the providers would
    answer; the same request without the pin is served by the provider the
    selector scores best, when that one is healthy and answers. *)
Theorem pinned_unhealthy_request_fails
  (post : list string -> string -> bool) (fuel : nat)
  (models : Router.Registry) (prompt pin type : string) :
  pin <> "auto" -> pin ∈ Router.keys models -> Scenarios.down models pin ->
  let env := Router.mkEnv (fun _ _ => Router.Raised) post in
  Router.generateContent env (S fuel) models [] prompt (Scenarios.pinned pin type)
  = (models, [], Router.Thrown Router.FallbackFailed)
  /\ (forall e,
        Router.selectOptimalModel models type prompt = Some e ->
        Router.isHealthy e.2 = true -> post [] e.1 = true ->
        (Router.generateContent env (S fuel) models [] prompt
           (Scenarios.unpinned type)).2 = Router.Returned e.1).
Proof.
  intros Hauto Hreg Hdown env. split.
  - rewrite (pinned_unhealthy_step env fuel models [] prompt pin type)
      by assumption.
    reflexivity.
  - intros [key sel] Hsel Hup Hpost. cbn [fst snd] in *.
    rewrite generateContent_step.
    change (Scenarios.selected models (Scenarios.unpinned type) prompt)
      with (Router.selectOptimalModel models type prompt).
    rewrite Hsel, Hup. cbn [negb]. cbv zeta.
    change (Router.post env [] key) with (post [] key).
    rewrite Hpost. reflexivity.
Qed.

Lemma pinned_unhealthy_request_fails_witness :
  Router.generateContent Scenarios.asWritten 3 Scenarios.hfHubRejected [] "hello"
    (Scenarios.pinned "hfHub" "conversation")
  = (Scenarios.hfHubRejected, [], Router.Thrown Router.FallbackFailed)
  /\ (Router.generateContent Scenarios.asWritten 3 Scenarios.hfHubRejected []
        "hello" (Scenarios.unpinned "conversation")).2
     = Router.Returned "chatterbox".
Proof.
  destruct (pinned_unhealthy_request_fails (fun _ _ => true) 2
              Scenarios.hfHubRejected "hello" "hfHub" "conversation")
    as [Hfails Hserved].
  - discriminate.
  - exact hfHub_registered.
  - exact hfHub_rejected_down.
  - split; [exact Hfails|].
    exact (Hserved _ eq_refl eq_refl eq_refl).
Defined.

(** ** Health monitor *)

Section Health.
Import Router System Scenarios.

Lemma elem_of_checkModelHealth probe now (models : Registry) (e' : Entry) :
  e' ∈ checkModelHealth probe now models <->
  exists e, e ∈ models /\ e' = (e.1, probeModel (probe e.1) (now e.1) e.2).
Proof.
  unfold checkModelHealth. rewrite list_elem_of_fmap. split.
  - intros (e & -> & Hin). eauto.
  - intros (e & Hin & ->). eauto.
Qed.

Lemma probeModel_flag (res : ProbeResult) (now : Z) (m : Model) :
  isHealthy (probeModel res now m) = true <-> res = Responded 200.
Proof.
  destruct res as [status|]; cbn.
  - rewrite Z.eqb_eq. split; [intros ->; reflexivity | intros [= ->]; reflexivity].
  - split; discriminate.
Qed.

(** After a run of [checkModelHealth], a key is up exactly when it is
    registered and its probe was answered with status 200. *)
Lemma up_after_check probe now (models : Registry) (key : string) :
  up (checkModelHealth probe now models) key -> probe key = Responded 200.
Proof.
  intros (e' & Hin & Hk & He').
  apply elem_of_checkModelHealth in Hin as (e & _ & ->).
  cbn [fst snd] in *. subst key. apply probeModel_flag in He'. exact He'.
Qed.





End Health.



(** C8 (as the code has it). On every failed health probe of a provider
    the Health Monitor sets the provider's flag to false and records the time of the
    check, and changes nothing else: the state of a provider has no
    consecutive-failure counter. *)
Theorem failed_probe_sets_flag_and_time
  (res : Router.ProbeResult) (now : Z) (m : Router.Model) :
  res <> Router.Responded 200 ->
  Router.probeModel res now m
  = Router.mkModel (Router.name m) (Router.endpoint m) (Router.healthEndpoint m)
      (Router.config m) (Router.capabilities m) (Router.loadBalancer m) false now.
Proof.
  intros Hfail. destruct res as [status|]; [|reflexivity].
  cbn. destruct (Z.eqb_spec status 200) as [-> | _]; [contradiction | reflexivity].
Qed.

Lemma failed_probe_sets_flag_and_time_witness :
  Router.isHealthy
    (Router.probeModel (Router.Responded 503) 30000
       (Scenarios.provider "A" ["conversation"] true)) = false
  /\ Router.lastHealthCheck
       (Router.probeModel (Router.Responded 503) 30000
          (Scenarios.provider "A" ["conversation"] true)) = 30000.
Proof.
  rewrite (failed_probe_sets_flag_and_time (Router.Responded 503) 30000
             (Scenarios.provider "A" ["conversation"] true));
    [split; reflexivity | discriminate].
Defined.

(** C8, as stated, fails: no quantity read off a provider's state goes up
    by one on every failed probe, since two failed probes in a row leave
    the state that the second alone leaves. *)
Lemma no_failure_counter :
  ~ exists counter : Router.Model -> Z,
      forall res now m,
        res <> Router.Responded 200 ->
        counter (Router.probeModel res now m) = counter m + 1.
Proof.
  intros [counter Hinc].
  set (m := Scenarios.provider "A" ["conversation"] true).
  assert (Hrej : Router.Rejected <> Router.Responded 200) by discriminate.
  pose proof (Hinc Router.Rejected 30000 m Hrej) as H1.
  pose proof (Hinc Router.Rejected 60000 m Hrej) as H2.
  pose proof (Hinc Router.Rejected 60000
                (Router.probeModel Router.Rejected 30000 m) Hrej) as H3.
  change (Router.probeModel Router.Rejected 60000
            (Router.probeModel Router.Rejected 30000 m))
    with (Router.probeModel Router.Rejected 60000 m) in H3.
  lia.
Qed.

(** ** Rate limiter *)

Section RateLimit.
Import Http.

Variables (ip : string) (t0 : Z).

Lemma rateLimit_opens (t : Z) (store : gmap string RateLimitRecord) :
  opens_window t ip store ->
  rateLimit t ip store = (Next, <[ip := mkRecord t 1]> store).
Proof.
  unfold opens_window, rateLimit, consume.
  destruct (store !! ip) as [r|]; [|reflexivity].
  intros H. destruct (Z.gtb_spec (t - windowStart r) duration); [reflexivity | lia].
Qed.

Lemma rateLimit_counts (t c : Z) (store : gmap string RateLimitRecord) :
  store !! ip = Some (mkRecord t0 c) -> t - t0 <= duration -> c < points ->
  rateLimit t ip store = (Next, <[ip := mkRecord t0 (c + 1)]> store).
Proof.
  intros Hrec Ht Hc. unfold rateLimit, consume. rewrite Hrec. cbn [windowStart count].
  destruct (Z.gtb_spec (t - t0) duration); [lia|].
  destruct (Z.geb_spec c points); [lia | reflexivity].
Qed.

Lemma rateLimit_refuses (t c : Z) (store : gmap string RateLimitRecord) :
  store !! ip = Some (mkRecord t0 c) -> t - t0 <= duration -> points <= c ->
  rateLimit t ip store = (Answer tooManyRequests, store).
Proof.
  intros Hrec Ht Hc. unfold rateLimit, consume. rewrite Hrec. cbn [windowStart count].
  destruct (Z.gtb_spec (t - t0) duration); [lia|].
  destruct (Z.geb_spec c points); [reflexivity | lia].
Qed.

(** Requests inside the window are all handed on while the count stays
    within [points]. *)
Lemma requests_admitted (ts : list Z) :
  forall c (store : gmap string RateLimitRecord),
    store !! ip = Some (mkRecord t0 c) ->
    Forall (fun t => t - t0 <= duration) ts ->
    c + Z.of_nat (length ts) <= points ->
    (requests ip ts store).1 = replicate (length ts) Next
    /\ (requests ip ts store).2 !! ip
       = Some (mkRecord t0 (c + Z.of_nat (length ts))).
Proof.
  induction ts as [|t ts IH]; intros c store Hrec Hts Hc.
  - cbn. rewrite Z.add_0_r. auto.
  - apply Forall_cons in Hts as [Ht Hts].
    cbn [requests]. rewrite (rateLimit_counts t c store Hrec Ht)
      by (cbn [length] in Hc; lia).
    destruct (IH (c + 1) (<[ip := mkRecord t0 (c + 1)]> store)) as [IH1 IH2];
      [apply lookup_insert_eq | exact Hts | cbn [length] in Hc; lia |].
    destruct (requests ip ts (<[ip := mkRecord t0 (c + 1)]> store)) as [hs store'].
    cbn [fst snd length replicate] in *. split; [congruence|].
    rewrite IH2. do 2 f_equal. lia.
Qed.

End RateLimit.

(** C7. With 100 points per 60 seconds: of the requests one caller sends
    within a window, the first 100 are handed on and the 101st is answered
    with status 429 by the middleware, which leaves the record as it is;
    the first request after the window has expired is handed on and puts
    the caller's count back to 1. *)
Theorem rate_limit_fixed_window
  (ip : string) (t0 : Z) (ts : list Z) (t101 later : Z)
  (store : gmap string Http.RateLimitRecord) :
  Http.opens_window t0 ip store ->
  length ts = 99%nat ->
  Forall (fun t => t - t0 <= Http.duration) ts ->
  t101 - t0 <= Http.duration ->
  Http.duration < later - t0 ->
  let admitted := Http.requests ip (t0 :: ts) store in
  admitted.1 = replicate 100 Http.Next
  /\ admitted.2 !! ip = Some (Http.mkRecord t0 100)
  /\ Http.rateLimit t101 ip admitted.2
     = (Http.Answer Http.tooManyRequests, admitted.2)
  /\ Http.status_of Http.tooManyRequests = 429
  /\ (Http.rateLimit later ip admitted.2).1 = Http.Next
  /\ (Http.rateLimit later ip admitted.2).2 !! ip = Some (Http.mkRecord later 1).
Proof.
  intros Hopen Hlen Hts H101 Hlater admitted.
  assert (Hadm : admitted.1 = replicate 100 Http.Next
                 /\ admitted.2 !! ip = Some (Http.mkRecord t0 100)).
  { unfold admitted. cbn [Http.requests].
    rewrite (rateLimit_opens ip t0 store Hopen).
    destruct (requests_admitted ip t0 ts 1 (<[ip := Http.mkRecord t0 1]> store))
      as [H1 H2];
      [apply lookup_insert_eq | exact Hts | rewrite Hlen; unfold Http.points; lia |].
    destruct (Http.requests ip ts (<[ip := Http.mkRecord t0 1]> store)) as [hs store'].
    cbn [fst snd] in *. rewrite H1, H2, Hlen. split; reflexivity. }
  destruct Hadm as [Hhs Hrec]. repeat split; auto.
  - apply (rateLimit_refuses ip t0 t101 100); [exact Hrec | exact H101|].
    unfold Http.points. lia.
  - rewrite rateLimit_opens; [reflexivity|].
    unfold Http.opens_window. rewrite Hrec. exact Hlater.
  - rewrite rateLimit_opens; [apply lookup_insert_eq|].
    unfold Http.opens_window. rewrite Hrec. exact Hlater.
Qed.

Lemma rate_limit_fixed_window_witness :
  let admitted := Http.requests "10.0.0.7" (0 :: replicate 99 30) ∅ in
  admitted.1 = replicate 100 Http.Next
  /\ Http.rateLimit 59 "10.0.0.7" admitted.2
     = (Http.Answer Http.tooManyRequests, admitted.2)
  /\ (Http.rateLimit 61 "10.0.0.7" admitted.2).2 !! "10.0.0.7"
     = Some (Http.mkRecord 61 1).
Proof.
  destruct (rate_limit_fixed_window "10.0.0.7" 0 (replicate 99 30) 59 61 ∅)
    as (H1 & _ & H3 & _ & _ & H6).
  - exact I.
  - reflexivity.
  - apply Forall_replicate. unfold Http.duration. lia.
  - unfold Http.duration. lia.
  - unfold Http.duration. lia.
  - split; [exact H1 | split; [exact H3 | exact H6]].
Defined.

(** ** Request validation *)

(** C10 (as the code has it). A [POST /generate] request whose body has no
    prompt, or an empty one, is answered by the router with status 400 and
    the error "Prompt is required"; no model is selected, no provider is
    called and the registry, with the health state of every provider, is
    left as it was. The handler of the RunPod proxy gives the same answer,
    without calling RunPod, when [RUNPOD_API_KEY] is set; when it is not,
    the check of the key comes first and the answer is 503 "RunPod API key
    not configured", again without a call. *)
Theorem generate_requires_prompt
  (env : Router.Env) (fuel : nat) (models : Router.Registry)
  (b : Http.GenerateBody)
  (apiKey : option string) (upstream : RunPod.Upstream) (body : RunPod.Body) :
  (Http.prompt b = None \/ Http.prompt b = Some "" ->
   Http.generate env fuel models b
   = (models, [], Some (Http.ErrorJson 400 "Prompt is required" None)))
  /\ (RunPod.prompt body = None \/ RunPod.prompt body = Some "" ->
      RunPod.generate apiKey upstream body
      = if Http.falsy apiKey
        then (503, Some "RunPod API key not configured", false)
        else (400, Some "Prompt is required", false)).
Proof.
  split.
  - intros [H | H]; unfold Http.generate; rewrite H; reflexivity.
  - intros [H | H]; unfold RunPod.generate; rewrite H; reflexivity.
Qed.

Lemma generate_requires_prompt_witness :
  Http.generate Scenarios.reliable 5 (Router.initializeModels 0)
    (Http.mkBody (Some "") (Some "gemma3") None (Router.mkOptions None None))
  = (Router.initializeModels 0, [],
     Some (Http.ErrorJson 400 "Prompt is required" None))
  /\ RunPod.generate (Some "key") RunPod.Data (RunPod.mkBody None (Some "ep-1"))
     = (400, Some "Prompt is required", false).
Proof.
  destruct (generate_requires_prompt Scenarios.reliable 5
              (Router.initializeModels 0)
              (Http.mkBody (Some "") (Some "gemma3") None
                 (Router.mkOptions None None))
              (Some "key") RunPod.Data (RunPod.mkBody None (Some "ep-1")))
    as [Hrouter Hrunpod].
  split; [apply Hrouter; right | apply Hrunpod; left]; reflexivity.
Defined.

(** C10, as stated, fails for the handler of the RunPod proxy when no API
    key is configured: a request without a prompt is answered 503, not
    400. *)
Lemma runpod_generate_without_key :
  RunPod.generate None RunPod.Data (RunPod.mkBody None (Some "ep-1"))
  = (503, Some "RunPod API key not configured", false)
  /\ (RunPod.generate None RunPod.Data (RunPod.mkBody None (Some "ep-1"))).1.1
     <> 400.
Proof. split; [reflexivity | discriminate]. Qed.

(** ** Termination of the fallback recursion with [nextHealthy] *)

Section Termination.
Import Router System Scenarios.
Local Open Scope nat_scope.

Variable env : Env.
Hypothesis fallback_is_nextHealthy :
  forall models key, findFallbackModel env models key = nextHealthy models key.

Lemma keys_update_model (key : string) (f : Model -> Model) (models : Registry) :
  keys (update_model key f models) = keys models.
Proof.
  unfold keys, update_model. rewrite <- list_fmap_compose.
  apply list_fmap_ext. intros i e _. cbn.
  destruct (String.eqb e.1 key); reflexivity.
Qed.

Lemma update_model_cons (key : string) (f : Model -> Model)
      (e : Entry) (models : Registry) :
  update_model key f (e :: models)
  = (if String.eqb e.1 key then (e.1, f e.2) else e) :: update_model key f models.
Proof. reflexivity. Qed.

Lemma healthy_count_update_le (key : string) (f : Model -> Model)
      (models : Registry) :
  (forall m, isHealthy (f m) = true -> isHealthy m = true) ->
  healthy_count (update_model key f models) <= healthy_count models.
Proof.
  intros Hf. induction models as [|e models IH]; [reflexivity|].
  rewrite update_model_cons. cbn [healthy_count].
  destruct (String.eqb e.1 key); cbn [fst snd]; [|lia].
  destruct (isHealthy (f e.2)) eqn:E; [rewrite (Hf _ E)|];
    destruct (isHealthy e.2); lia.
Qed.

Lemma healthy_count_marked (key : string) (models : Registry) (sel : Model) :
  (key, sel) ∈ models -> isHealthy sel = true ->
  healthy_count (update_model key (set_isHealthy false) models)
  < healthy_count models.
Proof.
  intros Hin Hsel. induction models as [|e models IH];
    [apply elem_of_nil in Hin as []|].
  rewrite update_model_cons. cbn [healthy_count].
  pose proof (healthy_count_update_le key (set_isHealthy false) models
                set_isHealthy_false_flag) as Hle.
  apply elem_of_cons in Hin as [<- | Hin].
  - cbn [fst snd]. rewrite String.eqb_refl, Hsel. cbn. lia.
  - specialize (IH Hin).
    destruct (String.eqb e.1 key); cbn [fst snd set_isHealthy isHealthy];
      destruct (isHealthy e.2); lia.
Qed.

Lemma lookup_model_unique (models : Registry) (e : Entry) :
  NoDup (keys models) -> e ∈ models -> lookup_model e.1 models = Some e.
Proof.
  unfold keys. induction models as [|[k m] models IH];
    intros Hnd Hin; [apply elem_of_nil in Hin as []|].
  cbn [fmap list_fmap fst] in Hnd. apply NoDup_cons in Hnd as [Hk Hnd].
  cbn [lookup_model]. apply elem_of_cons in Hin as [-> | Hin].
  - cbn [fst]. rewrite String.eqb_refl. reflexivity.
  - destruct (String.eqb_spec k e.1) as [-> | _].
    + exfalso. apply Hk. apply list_elem_of_fmap.
      exists e. split; [reflexivity | exact Hin].
    + apply IH; assumption.
Qed.

(** The call that follows a fallback found by [nextHealthy] is ready. *)
Lemma ready_after_fallback (models : Registry) (failed f prompt : string)
      (type : option string) :
  NoDup (keys models) -> nextHealthy models failed = Found f ->
  ready models (mkOptions (keyOf models f) type) prompt.
Proof.
  intros Hnd Hf. apply nextHealthy_some in Hf as [(e & Hin & He1 & He2) _].
  assert (Hreg : f ∈ keys models)
    by (unfold keys; apply list_elem_of_fmap; eauto).
  rewrite (keyOf_registered models f Hreg).
  unfold ready, selected. simpl.
  destruct (String.eqb f "auto").
  - destruct (select_some_healthy (default "general" type) prompt models)
      as (b & Hb & Hbest); [eauto|].
    rewrite Hb. split; [|discriminate].
    intros key sel [= ->]. apply (first_best_elem _ _ _ _ Hbest).
  - rewrite <- He1, (lookup_model_unique models e Hnd Hin).
    split; [|discriminate]. intros key sel [= ->]. exact He2.
Qed.

Lemma ready_terminates (fuel : nat) :
  forall models attempts prompt options,
    NoDup (keys models) -> healthy_count models < fuel ->
    ready models options prompt ->
    (generateContent env fuel models attempts prompt options).2 <> OutOfFuel.
Proof.
  induction fuel as [|fuel IH];
    intros models attempts prompt options Hnd Hcount Hready; [lia|].
  rewrite generateContent_step. destruct Hready as [Hready Hnone].
  destruct (selected models options prompt) as [[key sel]|] eqn:Hsel;
    [|cbv zeta; rewrite (Hnone eq_refl); discriminate].
  pose proof (Hready key sel eq_refl) as Hsel_up.
  rewrite Hsel_up. cbn [negb]. cbv zeta.
  destruct (post env attempts key); [discriminate|].
  rewrite fallback_is_nextHealthy.
  set (lb := (LoadBalancer.getNextEndpoint (loadBalancer sel)).2).
  set (models1 := update_model key (set_loadBalancer lb) models).
  set (models2 := update_model key (set_isHealthy false) models1).
  assert (Hnd2 : NoDup (keys models2))
    by (unfold models2, models1; rewrite !keys_update_model; exact Hnd).
  destruct (nextHealthy models2 key) as [f| |] eqn:Hf; [|discriminate ..].
  apply IH; [exact Hnd2 | | eapply ready_after_fallback; eassumption].
  apply selected_elem in Hsel.
  assert (Hsel1 : (key, set_loadBalancer lb sel) ∈ models1).
  { apply elem_of_update_model. exists (key, sel). cbn [fst snd].
    rewrite String.eqb_refl. auto. }
  pose proof (healthy_count_marked key models1 _ Hsel1 Hsel_up) as Hlt.
  pose proof (healthy_count_update_le key (set_loadBalancer lb) models
                (set_loadBalancer_flag lb)) as Hle.
  fold models1 in Hle. fold models2 in Hlt. lia.
Qed.

(** With [nextHealthy] as the fallback, a request ends: it returns or it
    throws within as many calls as there are healthy providers, plus two. *)
Lemma generateContent_terminates (fuel : nat) (models : Registry)
      (prompt : string) (options : Options) :
  NoDup (keys models) -> healthy_count models + 1 < fuel ->
  (generateContent env fuel models [] prompt options).2 <> OutOfFuel.
Proof.
  intros Hnd Hcount. destruct fuel as [|fuel]; [lia|].
  destruct (selected models options prompt) as [[key sel]|] eqn:Hsel.
  - destruct (isHealthy sel) eqn:Hsel_up.
    + apply ready_terminates; [exact Hnd | lia|].
      split; [|rewrite Hsel; discriminate].
      intros k s Hk. rewrite Hsel in Hk. injection Hk as <- <-. exact Hsel_up.
    + rewrite generateContent_step, Hsel, Hsel_up. cbn [negb].
      rewrite fallback_is_nextHealthy.
      destruct (nextHealthy models key) as [f| |] eqn:Hf; [|discriminate ..].
      apply ready_terminates; [exact Hnd | lia|].
      eapply ready_after_fallback; eassumption.
  - rewrite generateContent_step, Hsel. cbv zeta.
    destruct (inherited _); [|discriminate].
    rewrite fallback_is_nextHealthy.
    destruct (nextHealthy models _) as [f| |] eqn:Hf; [|discriminate ..].
    apply ready_terminates; [exact Hnd | lia|].
    eapply ready_after_fallback; eassumption.
Qed.

End Termination.

(** * Further properties of the router *)

(** ** Round-robin load balancer without endpoints *)

Lemma calls_without_endpoints_nan (k : nat) :
  LoadBalancer.calls k (LoadBalancer.mkLB [] LoadBalancer.NaN)
  = (replicate k None, LoadBalancer.mkLB [] LoadBalancer.NaN).
Proof.
  induction k as [|k IH]; [reflexivity|].
  cbn [LoadBalancer.calls]. unfold LoadBalancer.getNextEndpoint at 1.
  cbn. rewrite IH. reflexivity.
Qed.

(** X1. A balancer built on an empty list never yields an endpoint: every
    call returns [undefined], and from the first call on [currentIndex] is
    [NaN]. *)
Theorem round_robin_without_endpoints (k : nat) :
  (LoadBalancer.calls k (LoadBalancer.new [])).1 = replicate k None
  /\ LoadBalancer.currentIndex (LoadBalancer.calls (S k) (LoadBalancer.new [])).2
     = LoadBalancer.NaN.
Proof.
  split.
  - destruct k as [|k]; [reflexivity|].
    cbn [LoadBalancer.calls]. unfold LoadBalancer.getNextEndpoint at 1. cbn.
    rewrite calls_without_endpoints_nan. reflexivity.
  - cbn [LoadBalancer.calls]. unfold LoadBalancer.getNextEndpoint at 1. cbn.
    rewrite calls_without_endpoints_nan. reflexivity.
Qed.

(** ** Selector: what the score depends on *)

Section Scores.
Import Router Scenarios.

Lemma score_by_length (key : string) (m : Model) (type p1 p2 : string) :
  String.length p1 = String.length p2 ->
  score key m type p1 = score key m type p2.
Proof. intros H. unfold score. rewrite H. reflexivity. Qed.

Lemma foldl_select_ext (type p1 p2 : string) (models : Registry) :
  (forall e, e ∈ models -> score e.1 e.2 type p1 = score e.1 e.2 type p2) ->
  forall acc,
    foldl (select_step type p1) acc models
    = foldl (select_step type p2) acc models.
Proof.
  induction models as [|e models IH]; intros Hs acc; [reflexivity|].
  cbn [foldl]. unfold select_step at 2 4.
  rewrite (Hs e) by left.
  apply IH. intros e' He'. apply Hs. right. exact He'.
Qed.

Lemma foldl_select_filter (type prompt : string) (models : list Entry) :
  forall acc,
    foldl (select_step type prompt) acc
      (filter (fun e : Entry => isHealthy e.2 = true) models)
    = foldl (select_step type prompt) acc models.
Proof.
  induction models as [|e models IH]; intros acc; [reflexivity|].
  destruct (isHealthy e.2) eqn:He.
  - rewrite filter_cons_True by exact He. cbn [foldl]. apply IH.
  - rewrite filter_cons_False by (rewrite He; discriminate).
    cbn [foldl]. rewrite IH. f_equal. unfold select_step.
    rewrite He. reflexivity.
Qed.

End Scores.

(** X2. The score of a healthy provider lies between 5 and 45: 5 for being
    healthy, 20 for the capability, at most 15 for the name and at most 5
    for the length of the prompt. *)
Theorem score_bounds (key : string) (m : Router.Model) (type prompt : string) :
  5 <= Router.score key m type prompt <= 45.
Proof.
  unfold Router.score.
  destruct (Router.includes type (Router.capabilities m));
    destruct (String.eqb_spec key "chatterbox");
    destruct (String.eqb_spec key "gemma3");
    destruct (String.eqb_spec key "hfHub");
    destruct (String.eqb_spec type "conversation");
    destruct (String.eqb_spec type "analysis");
    destruct (String.eqb_spec type "specialized");
    destruct (Z.gtb_spec (Z.of_nat (String.length prompt)) 1000);
    destruct (Z.ltb_spec (Z.of_nat (String.length prompt)) 500);
    destruct (Router.num_gt (Router.max_tokens (Router.config m)) 2048);
    destruct (Router.num_le (Router.max_tokens (Router.config m)) 1024);
    cbn [andb]; try lia; congruence.
Qed.

(** X3. The selector reads the length of the prompt and nothing else of
    it: two prompts of the same length get the same provider. *)
Theorem select_by_prompt_length
  (models : Router.Registry) (type p1 p2 : string) :
  String.length p1 = String.length p2 ->
  Router.selectOptimalModel models type p1
  = Router.selectOptimalModel models type p2.
Proof.
  intros Hlen. unfold Router.selectOptimalModel, Router.select_loop.
  rewrite (foldl_select_ext type p1 p2 models); [reflexivity|].
  intros e _. apply score_by_length, Hlen.
Qed.

Lemma select_by_prompt_length_witness :
  Router.selectOptimalModel (Router.initializeModels 0) "analysis" "hello"
  = Router.selectOptimalModel (Router.initializeModels 0) "analysis" "world".
Proof.
  apply (select_by_prompt_length (Router.initializeModels 0) "analysis"
           "hello" "world").
  reflexivity.
Defined.

(** X4. With a healthy provider registered, the unhealthy ones have no part
    in the choice: the selector returns what it returns on the registry
    reduced to its healthy providers. *)
Theorem select_ignores_unhealthy
  (models : list Router.Entry) (type prompt : string) :
  (exists e, e ∈ models /\ Router.isHealthy e.2 = true) ->
  Router.selectOptimalModel models type prompt
  = Router.selectOptimalModel
      (filter (fun e : Router.Entry => Router.isHealthy e.2 = true) models)
      type prompt.
Proof.
  intros Hsome.
  destruct (select_some_healthy type prompt models Hsome) as (e & Hsel & _).
  rewrite Hsel. revert Hsel.
  unfold Router.selectOptimalModel, Router.select_loop.
  rewrite foldl_select_filter.
  pose proof (select_loop_inv type prompt models) as Hinv.
  unfold Scenarios.loop_inv, Router.select_loop in Hinv.
  destruct (foldl (Router.select_step type prompt) (None, 0) models).1 as [b|];
    [intros H; exact (eq_sym H)|].
  destruct Hsome as (h & Hin & Hh). destruct Hinv as [_ Hdown].
  rewrite (Hdown h Hin) in Hh. discriminate.
Qed.

Lemma select_ignores_unhealthy_witness :
  Router.selectOptimalModel Scenarios.hfHubRejected "text-generation" "hello"
  = Router.selectOptimalModel
      (filter (fun e : Router.Entry => Router.isHealthy e.2 = true)
         Scenarios.hfHubRejected)
      "text-generation" "hello".
Proof.
  apply (select_ignores_unhealthy Scenarios.hfHubRejected "text-generation" "hello").
  eexists. split; [left | reflexivity].
Defined.

(** ** Health monitor: what a check leaves behind *)

Section AfterCheck.
Import Router Scenarios Descriptors.

Lemma probeModel_accepted (res : ProbeResult) (now : Z) (m : Model) :
  isHealthy (probeModel res now m) = accepted res.
Proof. destruct res; reflexivity. Qed.

Lemma probeModel_time (res : ProbeResult) (now : Z) (m : Model) :
  lastHealthCheck (probeModel res now m) = now.
Proof. destruct res; reflexivity. Qed.

Lemma probeModel_static (res : ProbeResult) (now : Z) (m : Model) :
  static (probeModel res now m) = static m
  /\ loadBalancer (probeModel res now m) = loadBalancer m.
Proof. destruct res; split; reflexivity. Qed.

Lemma accepted_200 (res : ProbeResult) :
  accepted res = true <-> res = Responded 200.
Proof.
  destruct res as [status|]; cbn; [|split; discriminate].
  rewrite Z.eqb_eq. split; [intros ->; reflexivity | intros [= ->]; reflexivity].
Qed.

End AfterCheck.

(** X5. A health check replaces the flag of every provider by the result of
    its probe (true exactly for status 200) and its timestamp by the clock
    reading, whatever they were before; it keeps the keys and their order,
    every descriptor and every load balancer. *)
Theorem health_check_overwrites
  (probe : string -> Router.ProbeResult) (now : string -> Z)
  (models : Router.Registry) :
  let after := Router.checkModelHealth probe now models in
  Descriptors.flags after
  = map (fun e : Router.Entry => (e.1, Descriptors.accepted (probe e.1))) models
  /\ Descriptors.timestamps after
     = map (fun e : Router.Entry => (e.1, now e.1)) models
  /\ Descriptors.statics after = Descriptors.statics models
  /\ Descriptors.balancers after = Descriptors.balancers models.
Proof.
  unfold Descriptors.flags, Descriptors.timestamps, Descriptors.statics,
    Descriptors.balancers, Router.checkModelHealth.
  repeat split; rewrite <- list_fmap_compose; apply list_fmap_ext;
    intros i e _; cbn.
  - rewrite probeModel_accepted. reflexivity.
  - rewrite probeModel_time. reflexivity.
  - rewrite (proj1 (probeModel_static _ _ _)). reflexivity.
  - rewrite (proj2 (probeModel_static _ _ _)). reflexivity.
Qed.

(** X6. After a health check in which the probe of at least one registered
    provider was answered with status 200, an unpinned request is given a
    provider whose probe was answered with status 200, whatever the flags
    were before the check. *)
Theorem select_after_health_check
  (probe : string -> Router.ProbeResult) (now : string -> Z)
  (models : Router.Registry) (type prompt : string) :
  (exists e, e ∈ models /\ probe e.1 = Router.Responded 200) ->
  exists e,
    Router.selectOptimalModel (Router.checkModelHealth probe now models)
      type prompt = Some e
    /\ probe e.1 = Router.Responded 200
    /\ Router.isHealthy e.2 = true.
Proof.
  intros (h & Hin & Hh).
  destruct (select_some_healthy type prompt
              (Router.checkModelHealth probe now models)) as (e & Hsel & Hbest).
  - exists (h.1, Router.probeModel (probe h.1) (now h.1) h.2). split.
    + apply elem_of_checkModelHealth. eauto.
    + cbn [snd]. rewrite probeModel_accepted, Hh. reflexivity.
  - exists e. split; [exact Hsel|].
    destruct (first_best_elem _ _ _ _ Hbest) as [Hein He]. split; [|exact He].
    apply elem_of_checkModelHealth in Hein as (e0 & _ & ->).
    cbn [fst snd] in *. rewrite probeModel_accepted in He.
    apply accepted_200, He.
Qed.

Lemma select_after_health_check_witness :
  exists e,
    Router.selectOptimalModel
      (Router.checkModelHealth
         (fun key => if String.eqb key "hfHub" then Router.Responded 200
                     else Router.Rejected)
         (fun _ => 60000) Scenarios.allRejected)
      "conversation" "hello" = Some e
    /\ e.1 = "hfHub".
Proof.
  destruct (select_after_health_check
              (fun key => if String.eqb key "hfHub" then Router.Responded 200
                          else Router.Rejected)
              (fun _ => 60000) Scenarios.allRejected "conversation" "hello")
    as (e & Hsel & _ & _).
  - eexists. split; [right; right; left | reflexivity].
  - exists e. split; [exact Hsel|].
    vm_compute in Hsel. injection Hsel as <-. reflexivity.
Defined.

(** ** Dispatcher: what a request leaves behind *)

Section AfterRequest.
Import Router Scenarios Descriptors.

Lemma statics_update_model (key : string) (f : Model -> Model)
      (models : Registry) :
  (forall e, e ∈ models -> e.1 = key -> static (f e.2) = static e.2) ->
  statics (update_model key f models) = statics models.
Proof.
  intros Hf. unfold statics, update_model. rewrite <- list_fmap_compose.
  apply list_fmap_ext. intros i e Hi. cbn.
  destruct (String.eqb_spec e.1 key) as [Hk | _]; [|reflexivity].
  cbn [fst snd]. rewrite Hf; [reflexivity | | exact Hk].
  apply list_elem_of_lookup. eauto.
Qed.

Lemma timestamps_update_model (key : string) (f : Model -> Model)
      (models : Registry) :
  (forall m, lastHealthCheck (f m) = lastHealthCheck m) ->
  timestamps (update_model key f models) = timestamps models.
Proof.
  intros Hf. unfold timestamps, update_model. rewrite <- list_fmap_compose.
  apply list_fmap_ext. intros i e _. cbn.
  destruct (String.eqb e.1 key); [|reflexivity].
  cbn [fst snd]. rewrite Hf. reflexivity.
Qed.

Lemma update_model_other (key : string) (f : Model -> Model)
      (models : Registry) (e : Entry) :
  e ∈ models -> e.1 <> key -> e ∈ update_model key f models.
Proof.
  intros Hin Hne. apply elem_of_update_model. exists e. split; [exact Hin|].
  destruct (String.eqb_spec e.1 key); [contradiction | reflexivity].
Qed.

Lemma keys_unique (models : Registry) (e1 e2 : Entry) :
  NoDup (keys models) -> e1 ∈ models -> e2 ∈ models -> e1.1 = e2.1 -> e1 = e2.
Proof.
  intros Hnd H1 H2 Hk.
  pose proof (lookup_model_unique models e1 Hnd H1) as L1.
  pose proof (lookup_model_unique models e2 Hnd H2) as L2.
  rewrite Hk in L1. congruence.
Qed.

(** What a call keeps, whatever it is entered with. *)
Lemma generateContent_keeps (env : Env) (fuel : nat) :
  forall models attempts prompt options,
    NoDup (keys models) ->
    let r := generateContent env fuel models attempts prompt options in
    statics r.1.1 = statics models
    /\ timestamps r.1.1 = timestamps models
    /\ exists new,
         r.1.2 = attempts ++ new
         /\ forall e, e ∈ models -> ~ e.1 ∈ new -> e ∈ r.1.1.
Proof.
  induction fuel as [|fuel IH]; intros models attempts prompt options Hnd.
  - cbn. repeat split. exists []. rewrite app_nil_r. auto.
  - assert (Hstop : forall out,
      let r := (models, attempts, out) : Run in
      statics r.1.1 = statics models
      /\ timestamps r.1.1 = timestamps models
      /\ exists new, r.1.2 = attempts ++ new
                     /\ forall e, e ∈ models -> ~ e.1 ∈ new -> e ∈ r.1.1).
    { intros out. cbn. repeat split. exists []. rewrite app_nil_r. auto. }
    rewrite generateContent_step.
    destruct (selected models options prompt) as [[key sel]|] eqn:Hsel.
    2:{ cbv zeta. destruct (inherited _); [|apply Hstop].
        destruct (findFallbackModel env models _);
          [apply IH; exact Hnd | apply Hstop ..]. }
    apply selected_elem in Hsel.
    destruct (isHealthy sel); cbn [negb].
    2:{ destruct (findFallbackModel env models key);
          [apply IH; exact Hnd | apply Hstop ..]. }
    set (lb := (LoadBalancer.getNextEndpoint (loadBalancer sel)).2).
    set (models1 := update_model key (set_loadBalancer lb) models).
    assert (Hs1 : statics models1 = statics models).
    { apply statics_update_model. intros e He Hk.
      assert (e = (key, sel)) as -> by (apply (keys_unique models); auto).
      reflexivity. }
    assert (Ht1 : timestamps models1 = timestamps models)
      by (apply timestamps_update_model; reflexivity).
    assert (Hother1 : forall e, e ∈ models -> e.1 <> key -> e ∈ models1)
      by (intros e; apply update_model_other).
    cbv zeta. destruct (post env attempts key).
    + cbn [fst snd]. split; [exact Hs1|]. split; [exact Ht1|].
      exists [key]. split; [reflexivity|].
      intros e He Hk. apply Hother1; [exact He|].
      intros Heq. apply Hk. rewrite Heq. left.
    + set (models2 := update_model key (set_isHealthy false) models1).
      assert (Hs2 : statics models2 = statics models)
        by (rewrite <- Hs1; apply statics_update_model; reflexivity).
      assert (Ht2 : timestamps models2 = timestamps models)
        by (rewrite <- Ht1; apply timestamps_update_model; reflexivity).
      assert (Hnd2 : NoDup (keys models2))
        by (unfold models2, models1; rewrite !keys_update_model; exact Hnd).
      assert (Hother2 : forall e, e ∈ models -> e.1 <> key -> e ∈ models2)
        by (intros e He Hk; apply update_model_other; auto).
      destruct (findFallbackModel env models2 key) as [f| |].
      * specialize (IH models2 (attempts ++ [key]) prompt
                       (mkOptions (keyOf models2 f) (opt_type options)) Hnd2).
        cbv zeta in IH. destruct IH as (IH1 & IH2 & new & Hnew & Hkeep).
        split; [congruence|]. split; [congruence|].
        exists (key :: new). split; [rewrite Hnew, <- app_assoc; reflexivity|].
        intros e He Hk. apply Hkeep; [|intros Hin; apply Hk; right; exact Hin].
        apply Hother2; [exact He|]. intros Heq. apply Hk. rewrite Heq. left.
      * cbn [fst snd]. split; [exact Hs2|]. split; [exact Ht2|].
        exists [key]. split; [reflexivity|].
        intros e He Hk. apply Hother2; [exact He|]. intros Heq. apply Hk. rewrite Heq. left.
      * cbn [fst snd]. split; [exact Hs2|]. split; [exact Ht2|].
        exists [key]. split; [reflexivity|].
        intros e He Hk. apply Hother2; [exact He|]. intros Heq. apply Hk. rewrite Heq. left.
Qed.

End AfterRequest.

(** X7. A request adds, removes, renames and reorders no provider, changes
    no descriptor, no list of endpoints and no timestamp, and leaves every
    provider it did not attempt exactly as it was. *)
Theorem request_keeps_registry
  (env : Router.Env) (fuel : nat) (models : Router.Registry)
  (prompt : string) (options : Router.Options) :
  NoDup (Router.keys models) ->
  let r := Router.generateContent env fuel models [] prompt options in
  Descriptors.statics r.1.1 = Descriptors.statics models
  /\ Descriptors.timestamps r.1.1 = Descriptors.timestamps models
  /\ forall e, e ∈ models -> ~ e.1 ∈ r.1.2 -> e ∈ r.1.1.
Proof.
  intros Hnd r.
  destruct (generateContent_keeps env fuel models [] prompt options Hnd)
    as (Hs & Ht & new & Hnew & Hkeep).
  fold r in Hs, Ht, Hnew, Hkeep. split; [exact Hs|]. split; [exact Ht|].
  intros e He Hk. apply Hkeep; [exact He|]. rewrite Hnew in Hk. exact Hk.
Qed.

Lemma initial_keys_nodup (now : Z) : NoDup (Router.keys (Router.initializeModels now)).
Proof.
  cbn. repeat (apply NoDup_cons; split;
               [intros H; repeat (apply elem_of_cons in H as [H | H];
                                  [discriminate H|]);
                apply elem_of_nil in H as [] |]).
  apply NoDup_nil_2.
Defined.

Lemma request_keeps_registry_witness :
  let r := Router.generateContent Scenarios.failing 2 (Router.initializeModels 0) []
             "hello" (Scenarios.unpinned "conversation") in
  r.1.2 = ["chatterbox"; "gemma3"]
  /\ Descriptors.statics r.1.1 = Descriptors.statics (Router.initializeModels 0)
  /\ Router.lookup_model "hfHub" r.1.1
     = Router.lookup_model "hfHub" (Router.initializeModels 0).
Proof.
  intros r. split; [reflexivity|].
  destruct (request_keeps_registry Scenarios.failing 2 (Router.initializeModels 0)
              "hello" (Scenarios.unpinned "conversation") (initial_keys_nodup 0))
    as (Hs & _ & _).
  split; [exact Hs | reflexivity].
Defined.

(** X8. A request contacts at most as many providers as are registered,
    whatever [findFallbackModel] returns and however the providers
    answer. *)
Theorem request_attempts_bounded
  (env : Router.Env) (fuel : nat) (models : Router.Registry)
  (prompt : string) (options : Router.Options) :
  (length (Router.generateContent env fuel models [] prompt options).1.2
   <= length models)%nat.
Proof.
  destruct (generateContent_ok env fuel models [] prompt options)
    as (Hnd & (new & Hnew & Hup) & _).
  - apply NoDup_nil_2.
  - intros k Hk. apply elem_of_nil in Hk as [].
  - replace (length models) with (length (Router.keys models))
      by (unfold Router.keys; apply length_fmap).
    apply submseteq_length, NoDup_submseteq; [exact Hnd|].
    intros k Hk. rewrite Hnew in Hk. cbn [app] in Hk.
    destruct (Hup k Hk) as (e & Hin & <- & _).
    unfold Router.keys. apply list_elem_of_fmap. eauto.
Qed.

(** ** The [/generate] handler of the router: answers *)

Lemma lookup_model_unregistered (key : string) (models : Router.Registry) :
  ~ key ∈ Router.keys models -> Router.lookup_model key models = None.
Proof.
  intros Hk. destruct (Router.lookup_model key models) as [e|] eqn:E; [|reflexivity].
  destruct (lookup_model_elem _ _ _ E) as [Hin <-].
  exfalso. apply Hk. unfold Router.keys. apply list_elem_of_fmap. eauto.
Qed.

(** [generateContent] reads [model] and [type] of its options through
    their defaults. *)
Lemma generateContent_defaults (env : Router.Env) (fuel : nat) :
  forall models attempts prompt (o1 o2 : Router.Options),
    default "auto" (Router.opt_model o1) = default "auto" (Router.opt_model o2) ->
    default "general" (Router.opt_type o1)
    = default "general" (Router.opt_type o2) ->
    Router.generateContent env fuel models attempts prompt o1
    = Router.generateContent env fuel models attempts prompt o2.
Proof.
  induction fuel as [|fuel IH]; intros models attempts prompt o1 o2 Hm Ht;
    [reflexivity|].
  rewrite !generateContent_step. unfold Scenarios.selected.
  rewrite Hm, Ht. cbv zeta.
  assert (Hgo : forall models' attempts' f,
    Router.generateContent env fuel models' attempts' prompt
      (Router.mkOptions (Router.keyOf models' f) (Router.opt_type o1))
    = Router.generateContent env fuel models' attempts' prompt
        (Router.mkOptions (Router.keyOf models' f) (Router.opt_type o2)))
    by (intros; apply IH; [reflexivity | exact Ht]).
  destruct (if String.eqb (default "auto" (Router.opt_model o2)) "auto"
            then _ else _) as [[key sel]|].
  - destruct (negb (Router.isHealthy sel)).
    + destruct (Router.findFallbackModel env models key); auto.
    + destruct (Router.post env attempts key); [reflexivity|].
      destruct (Router.findFallbackModel env _ key); auto.
  - destruct (Router.inherited _); [|reflexivity].
    destruct (Router.findFallbackModel env models _); auto.
Qed.

(** X9. A request for a model name that is not registered and that is no
    member every object inherits is answered with status 500 and the message
    "Model <name> not found"; no provider is contacted and the registry is
    left as it was. A name such as [constructor] or [toString] is not
    answered so: [this.models[name]] is then the inherited member, which
    passes for a model that is not healthy, and the request is answered as
    the request for the model [findFallbackModel] gives for it, or with the
    error of the missing fallback. *)
Theorem generate_unknown_model
  (env : Router.Env) (fuel : nat) (models : Router.Registry)
  (prompt pin : string) (type : option string) :
  prompt <> "" -> pin <> "auto" -> ~ pin ∈ Router.keys models ->
  let request model :=
    Http.mkBody (Some prompt) model type (Router.mkOptions None None) in
  let failed e :=
    (models, [] : list string,
     Some (Http.ErrorJson 500 "Generation failed" (Some (Router.message e)))) in
  (Router.inherited pin = false ->
   Http.generate env (S fuel) models (request (Some pin))
   = (models, [],
      Some (Http.ErrorJson 500 "Generation failed"
              (Some (String.append "Model " (String.append pin " not found"))))))
  /\ (Router.inherited pin = true ->
      Http.generate env (S fuel) models (request (Some pin))
      = match Router.findFallbackModel env models pin with
        | Router.Found f =>
            Http.generate env fuel models (request (Router.keyOf models f))
        | Router.NotFound => failed Router.NoHealthyModels
        | Router.Raised => failed Router.FallbackFailed
        end).
Proof.
  intros Hp Hauto Hreg request failed.
  unfold request, failed, Http.generate. cbn [Http.prompt Http.falsy].
  destruct (String.eqb_spec prompt "") as [Heq | _]; [contradiction|].
  rewrite generateContent_step. unfold Scenarios.selected, Http.spread. simpl.
  destruct (String.eqb_spec pin "auto") as [Heq | _]; [contradiction|].
  rewrite (lookup_model_unregistered pin models Hreg).
  split; intros ->; [reflexivity|].
  destruct (Router.findFallbackModel env models pin) as [f| |];
    [|reflexivity ..].
  rewrite (generateContent_defaults env fuel models [] prompt
             (Router.mkOptions (Router.keyOf models f)
                (Some (default "general" type)))
             (Router.mkOptions
                (Some (default "auto" (Router.keyOf models f)))
                (Some (default "general" type))));
    [reflexivity | destruct (Router.keyOf models f); reflexivity | reflexivity].
Qed.

Lemma generate_unknown_model_witness :
  Http.generate Scenarios.asWritten 3 (Router.initializeModels 0)
    (Http.mkBody (Some "hello") (Some "gpt-4") None (Router.mkOptions None None))
  = (Router.initializeModels 0, [],
     Some (Http.ErrorJson 500 "Generation failed" (Some "Model gpt-4 not found")))
  /\ Http.generate Scenarios.asWritten 3 (Router.initializeModels 0)
       (Http.mkBody (Some "hello") (Some "constructor") None
          (Router.mkOptions None None))
     = (Router.initializeModels 0, [],
        Some (Http.ErrorJson 500 "Generation failed"
                (Some "this.findFallbackModel is not a function"))).
Proof.
  assert (Hnew : forall pin,
    pin <> "gemma3" -> pin <> "chatterbox" -> pin <> "hfHub" ->
    ~ pin ∈ Router.keys (Router.initializeModels 0)).
  { intros pin H1 H2 H3 H.
    change (pin ∈ ["gemma3"; "chatterbox"; "hfHub"]) in H.
    repeat (apply elem_of_cons in H as [H | H]; [contradiction|]).
    apply elem_of_nil in H as []. }
  split.
  - apply (generate_unknown_model Scenarios.asWritten 2
             (Router.initializeModels 0) "hello" "gpt-4" None);
      [discriminate | discriminate | apply Hnew; discriminate | reflexivity].
  - apply (generate_unknown_model Scenarios.asWritten 2
             (Router.initializeModels 0) "hello" "constructor" None);
      [discriminate | discriminate | apply Hnew; discriminate | reflexivity].
Defined.

(** X10. The [/generate] handler answers with status 200, 400 or 500 and no
    other: 200 only with the result of a provider that was healthy when the
    request came in and that was the last one attempted; 400 only for a
    missing prompt, with nothing attempted; 500 for every error of
    [generateContent]. *)
Theorem generate_answers
  (env : Router.Env) (fuel : nat) (models : Router.Registry)
  (b : Http.GenerateBody) (response : Http.Response) :
  (Http.generate env fuel models b).2 = Some response ->
  match response with
  | Http.ResultJson key =>
      Http.falsy (Http.prompt b) = false
      /\ Scenarios.up models key
      /\ exists init, (Http.generate env fuel models b).1.2 = init ++ [key]
  | Http.ErrorJson status _ _ =>
      (status = 400 /\ Http.falsy (Http.prompt b) = true
       /\ (Http.generate env fuel models b).1.2 = [])
      \/ (status = 500 /\ Http.falsy (Http.prompt b) = false)
  end.
Proof.
  unfold Http.generate. destruct (Http.falsy (Http.prompt b)) eqn:Hp.
  - cbn. intros [= <-]. left. auto.
  - pose proof (generateContent_ok env fuel models [] (default "" (Http.prompt b))
                  (Http.spread b) NoDup_nil_2) as Hok.
    destruct (Router.generateContent env fuel models []
                (default "" (Http.prompt b)) (Http.spread b))
      as [[models' attempts] [key | e |]]; cbn [fst snd]; intros [= <-].
    + destruct Hok as (_ & (new & Hnew & Hup) & _ & _ & Hret).
      { intros k Hk. apply elem_of_nil in Hk as []. }
      cbn [fst snd] in *. destruct (Hret key eq_refl) as [_ (init & Hinit)].
      split; [reflexivity|]. split; [|eauto].
      apply Hup. rewrite Hnew in Hinit. cbn [app] in Hinit. rewrite Hinit.
      apply elem_of_app. right. left.
    + right. auto.
Qed.

Lemma generate_answers_witness :
  Scenarios.up (Router.initializeModels 0) "chatterbox".
Proof.
  pose proof (generate_answers Scenarios.reliable 3 (Router.initializeModels 0)
                (Http.mkBody (Some "hello") None (Some "conversation")
                   (Router.mkOptions None None))
                (Http.ResultJson "chatterbox") eq_refl) as H.
  cbv beta iota in H. exact (proj1 (proj2 H)).
Defined.

(** ** Wire formats *)

Section WireFacts.
Import Router Wire.

Lemma field_throws (name : string) (v : Js) :
  field name v = None <-> nullish v = true.
Proof. destruct v; cbn; split; congruence. Qed.

Lemma first_throws (v : Js) : first v = None <-> nullish v = true.
Proof. destruct v; cbn; split; congruence. Qed.

Lemma or_truthy (a b : Js) : truthy a = true -> or a b = a.
Proof. intros H. unfold or. rewrite H. reflexivity. Qed.

Lemma or_falsy (a b : Js) : truthy a = false -> or a b = b.
Proof. intros H. unfold or. rewrite H. reflexivity. Qed.

Lemma or_string (a : Js) :
  truthy (or a (Str "")) = true \/ or a (Str "") = Str "".
Proof. unfold or. destruct (truthy a) eqn:E; auto. Qed.

End WireFacts.

(** X11. [processResponse] throws exactly when the response is [null] or
    [undefined], or when the model is not the Hugging Face one and the
    response carries no [choices] (the field is missing or [null]). *)
Theorem processResponse_throws (m : Router.Model) (response : Wire.Js) :
  Wire.processResponse m response = None <->
  Wire.nullish response = true
  \/ (Router.name m <> "Hugging Face Hub"
      /\ exists choices, Wire.field "choices" response = Some choices
                         /\ Wire.nullish choices = true).
Proof.
  unfold Wire.processResponse.
  destruct (String.eqb_spec (Router.name m) "Hugging Face Hub") as [Hf | Hf].
  - destruct (Wire.first response) as [x|] eqn:E.
    + split; [discriminate|]. intros [H | [H _]]; [|contradiction].
      apply first_throws in H. congruence.
    + split; [|reflexivity]. intros _. left. apply first_throws, E.
  - destruct (Wire.field "choices" response) as [choices|] eqn:E.
    + destruct (Wire.first choices) as [x|] eqn:E'.
      * split; [discriminate|]. intros [H | (_ & c & [= <-] & H)].
        -- apply (field_throws "choices") in H. congruence.
        -- apply first_throws in H. congruence.
      * split; [|reflexivity]. intros _. right. split; [exact Hf|].
        exists choices. split; [reflexivity | apply first_throws, E'].
    + split; [|reflexivity]. intros _. left. apply (field_throws "choices"), E.
Qed.

(** X12. When [processResponse] returns, the content is never [undefined],
    [null], [false] or 0: it is a truthy value or the empty string; the
    model is the name of the model asked, and the usage is an object or
    another truthy value. *)
Theorem processResponse_content
  (m : Router.Model) (response : Wire.Js) (p : Wire.Processed) :
  Wire.processResponse m response = Some p ->
  (Wire.truthy (Wire.content p) = true \/ Wire.content p = Wire.Str "")
  /\ Wire.model p = Router.name m
  /\ Wire.truthy (Wire.usage p) = true.
Proof.
  unfold Wire.processResponse.
  destruct (String.eqb (Router.name m) "Hugging Face Hub").
  - destruct (Wire.first response); [|discriminate]. intros [= <-]. cbn.
    split; [apply or_string | auto].
  - destruct (Wire.field "choices" response) as [choices|]; [|discriminate].
    destruct (Wire.first choices) as [choice|]; [|discriminate].
    intros [= <-]. cbn. split; [|split; [reflexivity|]].
    + destruct (Wire.truthy (Wire.optional "text" choice)) eqn:E.
      * rewrite (or_truthy _ _ E). auto.
      * rewrite (or_falsy _ _ E). apply or_string.
    + destruct (Wire.truthy (Wire.optional "usage" response)) eqn:E.
      * rewrite (or_truthy _ _ E). exact E.
      * rewrite (or_falsy _ _ E). reflexivity.
Qed.

Lemma processResponse_content_witness :
  Wire.content (Wire.mkProcessed (Wire.Str "") "A" (Wire.Obj [])) = Wire.Str "".
Proof.
  destruct (processResponse_content
              (Scenarios.provider "A" ["conversation"] true)
              (Wire.Obj [("choices", Wire.Arr [Wire.Obj [("text", Wire.Str "")]])])
              (Wire.mkProcessed (Wire.Str "") "A" (Wire.Obj [])) eq_refl)
    as [[H | H] _]; [discriminate H | exact H].
Defined.

(** X13. [processResponse] reads the first element and nothing else of the
    list it is given: two responses whose first choice (or first element,
    for the Hugging Face model) and usage agree are processed alike. *)
Theorem processResponse_first_only
  (m : Router.Model) (r1 r2 : Wire.Js) :
  (if String.eqb (Router.name m) "Hugging Face Hub"
   then Wire.first r1 = Wire.first r2
   else match Wire.field "choices" r1, Wire.field "choices" r2 with
        | Some c1, Some c2 =>
            Wire.first c1 = Wire.first c2
            /\ Wire.optional "usage" r1 = Wire.optional "usage" r2
        | None, None => True
        | _, _ => False
        end) ->
  Wire.processResponse m r1 = Wire.processResponse m r2.
Proof.
  unfold Wire.processResponse.
  destruct (String.eqb (Router.name m) "Hugging Face Hub").
  - intros ->. reflexivity.
  - destruct (Wire.field "choices" r1) as [c1|],
             (Wire.field "choices" r2) as [c2|]; try contradiction; [|reflexivity].
    intros [-> ->]. reflexivity.
Qed.

Lemma processResponse_first_only_witness :
  Wire.processResponse (Scenarios.provider "A" ["conversation"] true)
    (Wire.Obj [("choices", Wire.Arr [Wire.Obj [("text", Wire.Str "one")];
                                     Wire.Obj [("text", Wire.Str "two")]])])
  = Wire.processResponse (Scenarios.provider "A" ["conversation"] true)
      (Wire.Obj [("choices", Wire.Arr [Wire.Obj [("text", Wire.Str "one")]])]).
Proof.
  apply processResponse_first_only. cbn. split; reflexivity.
Defined.

(** X14. An answer the router cannot read counts as a failure of the
    provider: when the selected provider answers with data on which
    [processResponse] throws, the attempt ends in the [catch], the provider
    is marked unhealthy and stays so to the end of the request, and the
    request is not answered by it. *)
Theorem unreadable_answer_marks_unhealthy
  (fallback : Router.Registry -> string -> Router.Fallback)
  (axios : list string -> string -> Wire.AxiosResult)
  (fuel : nat) (models : Router.Registry) (prompt : string)
  (options : Router.Options) (key : string) (sel : Router.Model)
  (data : Wire.Js) :
  NoDup (Router.keys models) ->
  Scenarios.selected models options prompt = Some (key, sel) ->
  Router.isHealthy sel = true ->
  axios [] key = Wire.Resolved data ->
  Wire.processResponse sel data = None ->
  let r := Router.generateContent (Wire.envOf fallback axios models) (S fuel)
             models [] prompt options in
  (exists rest, r.1.2 = key :: rest)
  /\ Scenarios.down r.1.1 key
  /\ r.2 <> Router.Returned key.
Proof.
  intros Hnd Hsel Hup Hax Hthrow r.
  set (env := Wire.envOf fallback axios models) in *.
  assert (Hpost : Router.post env [] key = false).
  { cbn. pose proof (selected_elem _ _ _ _ Hsel) as Hin.
    rewrite (lookup_model_unique models (key, sel) Hnd Hin : Router.lookup_model key models = _).
    cbn [snd]. rewrite Hax. cbn. rewrite Hthrow. reflexivity. }
  set (marked :=
         Router.update_model key (Router.set_isHealthy false)
           (Router.update_model key
              (Router.set_loadBalancer
                 (LoadBalancer.getNextEndpoint (Router.loadBalancer sel)).2)
              models)).
  assert (Hmarked : Scenarios.down marked key) by apply down_marked.
  assert (Hcont : forall options',
    let r' := Router.generateContent env fuel marked [key] prompt options' in
    (exists rest, r'.1.2 = key :: rest)
    /\ Scenarios.down r'.1.1 key /\ r'.2 <> Router.Returned key).
  { intros options' r'.
    destruct (generateContent_ok env fuel marked [key] prompt options')
      as (_ & (new & Hnew & _) & Hdown & _ & Hret).
    - apply NoDup_singleton.
    - intros k Hk. apply list_elem_of_singleton in Hk as ->. exact Hmarked.
    - fold r' in Hnew, Hdown, Hret. split; [eauto|]. split; [auto|].
      intros Hr. destruct (Hret key Hr) as [Hk _].
      exact (up_not_down _ _ Hk (Hdown key Hmarked)). }
  unfold r. rewrite generateContent_step, Hsel, Hup. cbn [negb]. cbv zeta.
  rewrite Hpost. fold marked.
  destruct (Router.findFallbackModel env marked key) as [f| |].
  - apply Hcont.
  - cbn [fst snd]. split; [eauto|]. split; [exact Hmarked | discriminate].
  - cbn [fst snd]. split; [eauto|]. split; [exact Hmarked | discriminate].
Qed.

Lemma unreadable_answer_marks_unhealthy_witness :
  let r := Router.generateContent
             (Wire.envOf System.nextHealthy
                (fun _ _ => Wire.Resolved (Wire.Obj [("error", Wire.Str "busy")]))
                (Router.initializeModels 0))
             1 (Router.initializeModels 0) [] "hello"
             (Scenarios.pinned "gemma3" "analysis") in
  Scenarios.down r.1.1 "gemma3".
Proof.
  eapply (unreadable_answer_marks_unhealthy System.nextHealthy
            (fun _ _ => Wire.Resolved (Wire.Obj [("error", Wire.Str "busy")]))
            0 (Router.initializeModels 0) "hello"
            (Scenarios.pinned "gemma3" "analysis") "gemma3").
  - exact (initial_keys_nodup 0).
  - reflexivity.
  - reflexivity.
  - reflexivity.
  - reflexivity.
Defined.

(** X15. For [prepareRequestData] a value of 0 is no value: a token limit,
    a temperature or a top_p of 0 (and a [stream] of [false]) given by the
    caller yields the request that is prepared without it, with the value
    of the model's configuration in its place. *)
Theorem prepareRequestData_zero_is_absent
  (m : Router.Model) (prompt : string) (options : Wire.RequestOptions) :
  Wire.prepareRequestData m prompt options
  = Wire.prepareRequestData m prompt (Wire.given options).
Proof.
  assert (Hlimit : forall configured,
    Wire.limit (Wire.maxTokens (Wire.given options)) configured
    = Wire.limit (Wire.maxTokens options) configured).
  { intros c. unfold Wire.limit, Wire.given. cbn [Wire.maxTokens].
    destruct (Wire.maxTokens options) as [z|]; [|reflexivity].
    destruct (z =? 0) eqn:E; [reflexivity | rewrite E; reflexivity]. }
  assert (Hsampling : forall q configured,
    Wire.sampling (match q with
                   | Some x => if Qeq_bool x 0 then None else Some x
                   | None => None
                   end) configured
    = Wire.sampling q configured).
  { intros [x|] c; [|reflexivity]. unfold Wire.sampling.
    destruct (Qeq_bool x 0) eqn:E; [reflexivity | rewrite E; reflexivity]. }
  assert (Hstream :
    default false (Wire.stream (Wire.given options))
    = default false (Wire.stream options)).
  { unfold Wire.given. cbn [Wire.stream].
    destruct (Wire.stream options) as [[|]|]; reflexivity. }
  unfold Wire.prepareRequestData. rewrite Hlimit, Hstream.
  unfold Wire.given. cbn [Wire.temperature Wire.top_p].
  rewrite !Hsampling. reflexivity.
Qed.

(** X16. [prepareRequestData] reads the name of the model and four fields
    of its configuration ([model], [max_tokens], [temperature], [top_p])
    and nothing else: not [max_new_tokens], not [do_sample]. So the request
    to the Hugging Face model of [initializeModels], whose configuration
    has [max_new_tokens] and neither [max_tokens] nor [top_p], carries no
    token limit and no top_p unless the caller gives them. *)
Theorem prepareRequestData_reads
  (m1 m2 : Router.Model) (prompt : string) (options : Wire.RequestOptions) :
  (Router.name m1 = "Hugging Face Hub" <-> Router.name m2 = "Hugging Face Hub") ->
  Router.model (Router.config m1) = Router.model (Router.config m2) ->
  Router.max_tokens (Router.config m1) = Router.max_tokens (Router.config m2) ->
  Router.temperature (Router.config m1) = Router.temperature (Router.config m2) ->
  Router.top_p (Router.config m1) = Router.top_p (Router.config m2) ->
  Wire.prepareRequestData m1 prompt options
  = Wire.prepareRequestData m2 prompt options.
Proof.
  intros Hname Hmodel Hmax Htemp Htop. unfold Wire.prepareRequestData.
  rewrite Hmodel, Hmax, Htemp, Htop.
  destruct (String.eqb_spec (Router.name m1) "Hugging Face Hub") as [H1 | H1],
           (String.eqb_spec (Router.name m2) "Hugging Face Hub") as [H2 | H2];
    try reflexivity; tauto.
Qed.

Lemma prepareRequestData_reads_witness :
  Wire.prepareRequestData Samples.hfHubModel "hello" Samples.noOptions
  = Wire.prepareRequestData (Samples.withoutNewTokens Samples.hfHubModel)
      "hello" Samples.noOptions
  /\ Wire.prepareRequestData Samples.hfHubModel "hello" Samples.noOptions
     = Wire.Generation "hello" None (Wire.FromConfig (Some "0.7")) true
         (Wire.FromConfig None).
Proof.
  split; [|reflexivity].
  apply (prepareRequestData_reads Samples.hfHubModel
           (Samples.withoutNewTokens Samples.hfHubModel) "hello"
           Samples.noOptions); [split; reflexivity | reflexivity ..].
Defined.

(** ** The other routes of the router *)

(** X17. After a health check, [GET /health] and [GET /models] both list
    every registered provider once, in registration order, as healthy
    exactly when its probe was answered with status 200, [/health] with the
    time of that check; the [status] of [/health] is "healthy" whatever the
    probes said. *)
Theorem health_reports_probes
  (probe : string -> Router.ProbeResult) (now : string -> Z)
  (models : Router.Registry) :
  let after := Router.checkModelHealth probe now models in
  (Routes.health after).1 = "healthy"
  /\ map (fun x : string * Routes.ModelHealth =>
            (x.1, Routes.healthy x.2, Routes.lastCheck x.2))
         (Routes.health after).2
     = map (fun e : Router.Entry =>
              (e.1, Descriptors.accepted (probe e.1), now e.1)) models
  /\ map (fun i => (Routes.id i, Routes.info_healthy i)) (Routes.models after)
     = map (fun e : Router.Entry =>
              (e.1, Descriptors.accepted (probe e.1))) models.
Proof.
  unfold Routes.health, Routes.models, Router.checkModelHealth. cbn [fst snd].
  split; [reflexivity|].
  split; rewrite <- !list_fmap_compose; apply list_fmap_ext; intros i e _; cbn.
  - rewrite probeModel_accepted, probeModel_time. reflexivity.
  - rewrite probeModel_accepted. reflexivity.
Qed.

(** X18. [POST /batch/generate] starts calls of [generateContent] only for
    an array of one to ten prompts, one call per prompt, in order and with
    the same options, empty prompts included; anything else is answered
    with status 400 before any provider is selected. *)
Theorem batch_of_one_to_ten
  (prompts : Routes.Prompts) (options : Router.Options) :
  match Routes.batchGenerate prompts options with
  | Routes.BatchCalls calls =>
      exists l, prompts = Routes.PromptList l
                /\ (1 <= length l <= 10)%nat
                /\ map fst calls = l
                /\ Forall (fun c => c.2 = options) calls
  | Routes.BatchAnswer r =>
      Http.status_of r = 400
      /\ match prompts with
         | Routes.NotAnArray => True
         | Routes.PromptList l => l = [] \/ (10 < length l)%nat
         end
  end.
Proof.
  unfold Routes.batchGenerate. destruct prompts as [|l]; [cbn; auto|].
  destruct (Nat.eqb_spec (length l) 0) as [H0 | H0].
  - cbn. split; [reflexivity|]. left. apply nil_length_inv, H0.
  - destruct (Nat.ltb_spec 10 (length l)) as [H10 | H10].
    + cbn. auto.
    + exists l. split; [reflexivity|]. split; [lia|]. split.
      * rewrite <- list_fmap_compose. cbn. apply list_fmap_id.
      * apply Forall_fmap, Forall_true. reflexivity.
Qed.

(** ** The RunPod proxy of the implementation guide: polling *)

Section Polling.
Import RunPodProxy.

Variable poll : nat -> Poll.

Lemma pending_dec (p : Poll) : {pending p} + {~ pending p}.
Proof.
  destruct p as [status data | status]; [|right; exact (fun H => H)].
  cbn. destruct (String.eqb_spec status "COMPLETED"); [right; tauto|].
  destruct (String.eqb_spec status "FAILED"); [right; tauto | left; tauto].
Qed.

Lemma pollLoop_pending (remaining attempt : nat) :
  pending (poll attempt) ->
  pollLoop poll (S remaining) attempt
  = let '(end_, requests, waits) := pollLoop poll remaining (S attempt) in
    (end_, S requests, S waits).
Proof.
  intros H. cbn [pollLoop]. destruct (poll attempt) as [status data|]; [|destruct H].
  destruct H as [H1 H2].
  destruct (String.eqb_spec status "COMPLETED"); [contradiction|].
  destruct (String.eqb_spec status "FAILED"); [contradiction | reflexivity].
Qed.

Lemma pollLoop_ending (remaining attempt : nat) :
  ~ pending (poll attempt) ->
  pollLoop poll (S remaining) attempt = (ending (poll attempt), 1%nat, O).
Proof.
  intros H. cbn [pollLoop]. unfold ending.
  destruct (poll attempt) as [status data|]; [|reflexivity].
  destruct (String.eqb_spec status "COMPLETED"); [reflexivity|].
  destruct (String.eqb_spec status "FAILED"); [reflexivity|].
  exfalso. apply H. cbn. auto.
Qed.

(** The loop ends on the first poll that is not pending, or runs out. *)
Lemma pollLoop_first (remaining : nat) :
  forall attempt,
    ((forall i, (i < remaining)%nat -> pending (poll (attempt + i)))
     /\ pollLoop poll remaining attempt = (JobTimeout, remaining, remaining))
    \/ exists i,
         (i < remaining)%nat
         /\ (forall j, (j < i)%nat -> pending (poll (attempt + j)))
         /\ ~ pending (poll (attempt + i))
         /\ pollLoop poll remaining attempt
            = (ending (poll (attempt + i)), S i, i).
Proof.
  induction remaining as [|remaining IH]; intros attempt.
  - left. split; [lia | reflexivity].
  - destruct (pending_dec (poll attempt)) as [Hp | Hp].
    + rewrite (pollLoop_pending remaining attempt Hp).
      destruct (IH (S attempt)) as [[Hall ->] | (i & Hi & Hbefore & Hat & ->)].
      * left. split; [|reflexivity].
        intros [|i] Hi; [rewrite Nat.add_0_r; exact Hp|].
        replace (attempt + S i)%nat with (S attempt + i)%nat by lia.
        apply Hall. lia.
      * right. exists (S i).
        replace (attempt + S i)%nat with (S attempt + i)%nat by lia.
        split; [lia|]. split; [|split; [exact Hat | reflexivity]].
        intros [|j] Hj; [rewrite Nat.add_0_r; exact Hp|].
        replace (attempt + S j)%nat with (S attempt + j)%nat by lia.
        apply Hbefore. lia.
    + right. exists O. rewrite Nat.add_0_r. split; [lia|].
      split; [lia|]. split; [exact Hp|]. apply pollLoop_ending, Hp.
Qed.

Lemma ending_not_timeout (p : Poll) : ending p <> JobTimeout.
Proof.
  destruct p as [status data|]; cbn; [|discriminate].
  destruct (String.eqb status "COMPLETED"); discriminate.
Qed.

End Polling.

(** X19. [pollForCompletion] asks for the status at most [maxAttempts]
    times. When it ends with "Job timeout" it has asked exactly
    [maxAttempts] times and waited as many intervals, the last one after
    the last answer; when it ends otherwise it has waited once less than
    it has asked. *)
Theorem poll_requests_bounded
  (poll : nat -> RunPodProxy.Poll) (maxAttempts : Z) :
  0 <= maxAttempts ->
  let r := RunPodProxy.pollForCompletion poll maxAttempts in
  (Z.of_nat r.1.2 <= maxAttempts)
  /\ (r.1.1 = RunPodProxy.JobTimeout ->
      Z.of_nat r.1.2 = maxAttempts /\ r.2 = r.1.2)
  /\ (r.1.1 <> RunPodProxy.JobTimeout -> r.1.2 = S r.2).
Proof.
  intros Hmax. unfold RunPodProxy.pollForCompletion.
  destruct (pollLoop_first poll (Z.to_nat maxAttempts) O)
    as [[_ ->] | (i & Hi & _ & _ & ->)]; cbn [fst snd].
  - split; [lia|]. split; [intros _; split; [lia | reflexivity]|].
    intros H. contradiction.
  - split; [lia|]. split; [|reflexivity].
    intros H. destruct (ending_not_timeout _ H).
Qed.

Lemma poll_requests_bounded_witness :
  let r := RunPodProxy.pollForCompletion
             (fun _ => RunPodProxy.Answered "IN_PROGRESS"
                         (RunPodProxy.mkJob Wire.Undefined Wire.Undefined None))
             60 in
  r.1.1 = RunPodProxy.JobTimeout /\ Z.of_nat r.1.2 = 60 /\ r.2 = r.1.2.
Proof.
  intros r. split; [reflexivity|].
  apply (poll_requests_bounded
           (fun _ => RunPodProxy.Answered "IN_PROGRESS"
                       (RunPodProxy.mkJob Wire.Undefined Wire.Undefined None))
           60 ltac:(lia)).
  reflexivity.
Defined.

(** X20. [pollForCompletion] is decided by the first status that is not
    pending: it returns the data of a job exactly when the first status
    among the first [maxAttempts] that is COMPLETED or FAILED, or whose
    request fails, is COMPLETED; and it ends with "Job timeout" exactly
    when the first [maxAttempts] statuses are all pending. *)
Theorem poll_first_decides
  (poll : nat -> RunPodProxy.Poll) (maxAttempts : Z) :
  ((RunPodProxy.pollForCompletion poll maxAttempts).1.1 = RunPodProxy.JobTimeout
   <-> forall i, (i < Z.to_nat maxAttempts)%nat -> RunPodProxy.pending (poll i))
  /\ forall data,
       (RunPodProxy.pollForCompletion poll maxAttempts).1.1
       = RunPodProxy.Completed data
       <-> exists i,
             (i < Z.to_nat maxAttempts)%nat
             /\ poll i = RunPodProxy.Answered "COMPLETED" data
             /\ forall j, (j < i)%nat -> RunPodProxy.pending (poll j).
Proof.
  unfold RunPodProxy.pollForCompletion.
  destruct (pollLoop_first poll (Z.to_nat maxAttempts) O)
    as [[Hall ->] | (i & Hi & Hbefore & Hat & ->)]; cbn [fst snd plus] in *.
  - split.
    + split; [intros _; exact Hall | reflexivity].
    + intros data. split; [discriminate|].
      intros (i & Hi & Hjob & _).
      specialize (Hall i Hi). rewrite Hjob in Hall. cbn in Hall. tauto.
  - split.
    + split.
      * intros H. destruct (ending_not_timeout _ H).
      * intros Hall. destruct (Hat (Hall i Hi)).
    + intros data. split.
      * intros Hend. exists i. split; [exact Hi|]. split; [|exact Hbefore].
        destruct (poll i) as [status job|]; cbn in Hend; [|discriminate].
        destruct (String.eqb_spec status "COMPLETED") as [-> | _];
          [|discriminate].
        injection Hend as ->. reflexivity.
      * intros (k & Hk & Hjob & Hk_before).
        assert (k = i) as ->.
        { destruct (Nat.lt_trichotomy k i) as [Hlt | [Heq | Hgt]]; [|exact Heq|].
          - specialize (Hbefore k Hlt). rewrite Hjob in Hbefore.
            cbn in Hbefore. tauto.
          - destruct (Hat (Hk_before i Hgt)). }
        rewrite Hjob. reflexivity.
Qed.

Lemma poll_first_decides_witness :
  (RunPodProxy.pollForCompletion
     (fun i => if (i <? 2)%nat
               then RunPodProxy.Answered "IN_QUEUE"
                      (RunPodProxy.mkJob Wire.Undefined Wire.Undefined None)
               else RunPodProxy.Answered "COMPLETED"
                      (RunPodProxy.mkJob (Wire.Str "done") (Wire.Num 3) None))
     60).1.1
  = RunPodProxy.Completed (RunPodProxy.mkJob (Wire.Str "done") (Wire.Num 3) None).
Proof.
  apply (poll_first_decides _ 60).
  exists 2%nat. split; [cbn; lia|]. split; [reflexivity|].
  intros j Hj. destruct j as [|[|j]]; cbn; [split; discriminate ..| lia].
Defined.

(** ** The RunPod proxy of the implementation guide: [POST /generate] *)

Lemma endpointId_configured (env : RunPodProxy.Endpoints) (model : string) :
  Http.falsy (RunPodProxy.endpointMap env model) = false ->
  exists id, RunPodProxy.endpointId env model = Some (RunPodProxy.Configured id).
Proof.
  unfold RunPodProxy.endpointId.
  destruct (RunPodProxy.endpointMap env model) as [id|]; cbn [Http.falsy];
    [|discriminate].
  intros ->. eauto.
Qed.

(** None of the three names of [endpointMap] is a member of
    [Object.prototype]. *)
Lemma endpointMap_own (env : RunPodProxy.Endpoints) (model id : string) :
  RunPodProxy.endpointMap env model = Some id -> Router.inherited model = false.
Proof.
  unfold RunPodProxy.endpointMap.
  destruct (String.eqb_spec model "mistral-7b") as [-> | _]; [reflexivity|].
  destruct (String.eqb_spec model "llama2-13b") as [-> | _]; [reflexivity|].
  destruct (String.eqb_spec model "falcon-40b") as [-> | _]; [reflexivity|].
  discriminate.
Qed.

Lemma runpod_proxy_calls (env : RunPodProxy.Endpoints) (model : option string)
      (start : RunPodProxy.Started) (poll : nat -> RunPodProxy.Poll)
      (endpoint : RunPodProxy.EndpointId) :
  RunPodProxy.endpointId env (default "mistral-7b" model) = Some endpoint ->
  (1 <= (RunPodProxy.generate env model start poll).2 <= 61)%nat.
Proof.
  intros Hid. unfold RunPodProxy.generate. rewrite Hid.
  destruct start as [jobId | status]; [|cbn; lia].
  pose proof (poll_requests_bounded poll 60 ltac:(lia)) as [Hle _].
  destruct (RunPodProxy.pollForCompletion poll 60) as [[end_ requests] waits].
  cbn [fst snd] in Hle. destruct end_; cbn [snd]; lia.
Qed.

(** X21. The [/generate] handler of the RunPod proxy answers 400 "Model not
    available on RunPod", without a request, for a model whose environment
    variable is unset or empty and for a name that is none of the three,
    unless the name is one every object inherits, such as [toString]: for
    such a name, as for a model whose endpoint is configured, it calls
    RunPod. When it does it makes between one and 61 requests: the one
    that starts the job and at most 60 for its status. *)
Theorem runpod_proxy_requests
  (env : RunPodProxy.Endpoints) (model : option string)
  (start : RunPodProxy.Started) (poll : nat -> RunPodProxy.Poll) :
  let name := default "mistral-7b" model in
  let r := RunPodProxy.generate env model start poll in
  (Http.falsy (RunPodProxy.endpointMap env name) = true ->
   Router.inherited name = false ->
   r = (RunPodProxy.Error 400 "Model not available on RunPod" None, O))
  /\ (Http.falsy (RunPodProxy.endpointMap env name) = false
      \/ Router.inherited name = true ->
      (1 <= r.2 <= 61)%nat).
Proof.
  intros name r. split.
  - intros Hfalsy Hinh. unfold r, RunPodProxy.generate, RunPodProxy.endpointId.
    fold name. rewrite Hinh.
    destruct (RunPodProxy.endpointMap env name) as [id|];
      cbn [Http.falsy] in Hfalsy; [rewrite Hfalsy|]; reflexivity.
  - intros [Hset | Hinh].
    + destruct (endpointId_configured env name Hset) as [id Hid].
      exact (runpod_proxy_calls env model start poll _ Hid).
    + apply (runpod_proxy_calls env model start poll (RunPodProxy.Member name)).
      fold name. unfold RunPodProxy.endpointId.
      destruct (RunPodProxy.endpointMap env name) as [id|] eqn:Hown.
      * rewrite (endpointMap_own env name id Hown) in Hinh. discriminate.
      * rewrite Hinh. reflexivity.
Qed.

Lemma runpod_proxy_requests_witness :
  RunPodProxy.generate (RunPodProxy.mkEndpoints (Some "ep-1") None None)
    (Some "llama2-13b") (RunPodProxy.JobId (Wire.Str "job-1"))
    (fun _ => RunPodProxy.Refused None)
  = (RunPodProxy.Error 400 "Model not available on RunPod" None, O)
  /\ (1 <= (RunPodProxy.generate (RunPodProxy.mkEndpoints (Some "ep-1") None None)
              (Some "toString") (RunPodProxy.JobId (Wire.Str "job-1"))
              (fun _ => RunPodProxy.Refused None)).2 <= 61)%nat.
Proof.
  split.
  - apply (runpod_proxy_requests (RunPodProxy.mkEndpoints (Some "ep-1") None None)
             (Some "llama2-13b") (RunPodProxy.JobId (Wire.Str "job-1"))
             (fun _ => RunPodProxy.Refused None)); reflexivity.
  - apply (runpod_proxy_requests (RunPodProxy.mkEndpoints (Some "ep-1") None None)
             (Some "toString") (RunPodProxy.JobId (Wire.Str "job-1"))
             (fun _ => RunPodProxy.Refused None)).
    right. reflexivity.
Defined.

(** X22. A job that RunPod accepts and whose first 60 statuses are all
    pending is answered with status 500 and the message "Job timeout",
    after 61 requests to RunPod. *)
Theorem runpod_proxy_timeout
  (env : RunPodProxy.Endpoints) (model : option string) (jobId : Wire.Js)
  (poll : nat -> RunPodProxy.Poll) :
  Http.falsy (RunPodProxy.endpointMap env (default "mistral-7b" model)) = false ->
  (forall i, (i < 60)%nat -> RunPodProxy.pending (poll i)) ->
  RunPodProxy.generate env model (RunPodProxy.JobId jobId) poll
  = (RunPodProxy.Error 500 "Failed to generate content" (Some "Job timeout"),
     61%nat).
Proof.
  intros Hep Hpending. unfold RunPodProxy.generate.
  destruct (endpointId_configured env _ Hep) as [id ->].
  pose proof (proj2 (proj1 (poll_first_decides poll 60)) Hpending) as Hend.
  pose proof (poll_requests_bounded poll 60 ltac:(lia)) as (_ & Htimeout & _).
  destruct (RunPodProxy.pollForCompletion poll 60) as [[end_ requests] waits].
  cbn [fst snd] in *. subst end_.
  destruct (Htimeout eq_refl) as [Hn _].
  replace requests with 60%nat by lia. reflexivity.
Qed.

Lemma runpod_proxy_timeout_witness :
  RunPodProxy.generate (RunPodProxy.mkEndpoints (Some "ep-1") None None) None
    (RunPodProxy.JobId (Wire.Str "job-1"))
    (fun _ => RunPodProxy.Answered "IN_QUEUE"
                (RunPodProxy.mkJob Wire.Undefined Wire.Undefined None))
  = (RunPodProxy.Error 500 "Failed to generate content" (Some "Job timeout"),
     61%nat).
Proof.
  apply (runpod_proxy_timeout (RunPodProxy.mkEndpoints (Some "ep-1") None None)
           None (Wire.Str "job-1")).
  - reflexivity.
  - intros i _. cbn. split; discriminate.
Defined.

(** ** The RunPod proxy server *)

Section Server.
Import RunPodServer.

Lemma call_called (upstream : RunPod.Upstream) : (call upstream).2 = true.
Proof. destruct upstream; reflexivity. Qed.

Lemma call_status (upstream : RunPod.Upstream) :
  (call upstream).1.1
  = match upstream with
    | RunPod.Data => 200
    | RunPod.Failure st => Http.errorStatus st
    end.
Proof. destruct upstream; reflexivity. Qed.

Lemma generate_is_call (apiKey : option string) (upstream : RunPod.Upstream)
      (b : RunPod.Body) :
  Http.falsy apiKey = false -> Http.falsy (RunPod.prompt b) = false ->
  Http.falsy (RunPod.endpointId b) = false ->
  RunPod.generate apiKey upstream b = call upstream.
Proof.
  intros H1 H2 H3. unfold RunPod.generate, call. rewrite H1, H2, H3.
  reflexivity.
Qed.

End Server.



(** X24. When a route calls RunPod, its answer has status 200 if the call
    succeeds and otherwise the status of RunPod's failed response, unless
    that status is 0 or the failure has no response: the answer is 500
    then. *)
Theorem server_relays_status
  (route : RunPodServer.Route) (apiKey : option string)
  (upstream : RunPod.Upstream) (r : RunPodServer.Request) :
  (RunPodServer.handle route apiKey upstream r).2 = true ->
  (RunPodServer.handle route apiKey upstream r).1.1
  = match upstream with
    | RunPod.Data => 200
    | RunPod.Failure (Some status) => if status =? 0 then 500 else status
    | RunPod.Failure None => 500
    end.
Proof.
  unfold RunPodServer.handle, RunPodServer.endpoints,
    RunPodServer.chat, RunPodServer.image, RunPodServer.status, RunPod.generate.
  cbn [RunPod.prompt RunPod.endpointId].
  destruct route, (Http.falsy apiKey);
    try (destruct (RunPodServer.messages r) as [|l];
         [|destruct (RunPodServer.elements l)]);
    try destruct (Http.falsy (RunPodServer.prompt r));
    try destruct (Http.falsy (RunPodServer.endpointId r));
    try destruct (Http.falsy (RunPodServer.queryEndpointId r));
    destruct upstream as [|[status|]]; cbn; intros; try discriminate;
    reflexivity.
Qed.

Lemma server_relays_status_witness :
  (RunPodServer.handle RunPodServer.Status (Some "key")
     (RunPod.Failure (Some 404))
     (RunPodServer.mkRequest None None RunPodServer.NoArray (Some "ep-1"))).1.1
  = 404
  /\ (RunPodServer.handle RunPodServer.Status (Some "key")
        (RunPod.Failure (Some 0))
        (RunPodServer.mkRequest None None RunPodServer.NoArray (Some "ep-1"))).1.1
     = 500.
Proof.
  split.
  - apply (server_relays_status RunPodServer.Status (Some "key")
             (RunPod.Failure (Some 404))
             (RunPodServer.mkRequest None None RunPodServer.NoArray
                (Some "ep-1"))).
    reflexivity.
  - apply (server_relays_status RunPodServer.Status (Some "key")
             (RunPod.Failure (Some 0))
             (RunPodServer.mkRequest None None RunPodServer.NoArray
                (Some "ep-1"))).
    reflexivity.
Defined.

Lemma append_assoc (a b c : string) :
  String.append (String.append a b) c = String.append a (String.append b c).
Proof.
  induction a as [|x a IH]; [reflexivity|].
  change (String x (String.append (String.append a b) c)
          = String x (String.append a (String.append b c))).
  f_equal. exact IH.
Qed.

Lemma concat_app (sep : string) (a b : list string) :
  a <> [] -> b <> [] ->
  String.concat sep (a ++ b)
  = String.append (String.concat sep a)
      (String.append sep (String.concat sep b)).
Proof.
  intros Ha Hb. induction a as [|x a IH]; [contradiction|].
  destruct a as [|y a].
  - cbn [app]. destruct b as [|z b]; [contradiction|]. reflexivity.
  - change (String.concat sep ((x :: y :: a) ++ b))
      with (String.append x (String.append sep (String.concat sep ((y :: a) ++ b)))).
    rewrite IH by discriminate.
    change (String.concat sep (x :: y :: a))
      with (String.append x (String.append sep (String.concat sep (y :: a)))).
    rewrite !append_assoc. reflexivity.
Qed.

(** X25. The prompt [/chat] sends is the lines "role: content" of the
    messages joined by newlines, so that the prompt of two conversations
    put end to end is their prompts with a newline in between; and an empty
    array of messages is no error: with an endpoint it is sent to RunPod as
    the empty prompt, which [/generate] refuses. *)
Theorem chat_prompt_joins (a b : list RunPodServer.Message) :
  a <> [] -> b <> [] ->
  RunPodServer.chatPrompt (a ++ b)
  = String.append (RunPodServer.chatPrompt a)
      (String.append RunPodServer.newline (RunPodServer.chatPrompt b))
  /\ RunPodServer.chatPrompt [] = ""
  /\ (forall apiKey upstream endpointId,
        Http.falsy apiKey = false -> Http.falsy (Some endpointId) = false ->
        (RunPodServer.handle RunPodServer.Chat apiKey upstream
           (RunPodServer.mkRequest None (Some endpointId)
              (RunPodServer.MessageList []) None)).2 = true
        /\ (RunPodServer.handle RunPodServer.Generate apiKey upstream
              (RunPodServer.mkRequest (Some (RunPodServer.chatPrompt []))
                 (Some endpointId) RunPodServer.NoArray None)).1.1 = 400).
Proof.
  intros Ha Hb. split; [|split; [reflexivity|]].
  - unfold RunPodServer.chatPrompt. rewrite map_app.
    apply concat_app; destruct a, b; cbn; congruence.
  - intros apiKey upstream endpointId Hkey Hep.
    unfold RunPodServer.handle, RunPodServer.chat, RunPod.generate.
    cbn [RunPodServer.messages RunPodServer.endpointId RunPodServer.prompt
         RunPod.prompt RunPod.endpointId].
    rewrite Hkey, Hep. split; [apply call_called | reflexivity].
Qed.

Lemma chat_prompt_joins_witness :
  RunPodServer.chatPrompt
    [RunPodServer.mkMessage (Some "system") (Some "be brief");
     RunPodServer.mkMessage (Some "user") None]
  = String.append "system: be brief"
      (String.append RunPodServer.newline "user: undefined").
Proof.
  apply (chat_prompt_joins
           [RunPodServer.mkMessage (Some "system") (Some "be brief")]
           [RunPodServer.mkMessage (Some "user") None]); discriminate.
Defined.

(** ** The OpenRouter proxy *)

Section Spread.
Import Wire.

Lemma own_app (name : string) (l1 l2 : list (string * Js)) :
  own name (l1 ++ l2)
  = if existsb (String.eqb name) (map fst l1) then own name l1 else own name l2.
Proof.
  induction l1 as [|[k v] l1 IH]; [reflexivity|].
  cbn [app own map fst existsb]. rewrite (String.eqb_sym name k).
  destruct (String.eqb k name); [reflexivity | exact IH].
Qed.

Lemma own_options (name : string) (body : list (string * Js)) :
  name <> "prompt" -> own name (OpenRouter.options body) = own name body.
Proof.
  intros Hname. unfold OpenRouter.options.
  induction body as [|[k v] body IH]; [reflexivity|].
  destruct (String.eqb_spec k "prompt") as [-> | Hk].
  - rewrite filter_cons_False by (cbn; tauto). cbn [own].
    destruct (String.eqb_spec "prompt" name); [congruence | exact IH].
  - rewrite filter_cons_True by exact Hk. cbn [own]. rewrite IH. reflexivity.
Qed.

Lemma keys_options (name : string) (body : list (string * Js)) :
  name <> "prompt" ->
  existsb (String.eqb name) (map fst (OpenRouter.options body))
  = existsb (String.eqb name) (map fst body).
Proof.
  intros Hname. unfold OpenRouter.options.
  induction body as [|[k v] body IH]; [reflexivity|].
  destruct (String.eqb_spec k "prompt") as [-> | Hk].
  - rewrite filter_cons_False by (cbn; tauto). cbn [map fst existsb].
    destruct (String.eqb_spec name "prompt"); [contradiction | exact IH].
  - rewrite filter_cons_True by exact Hk. cbn [map fst existsb].
    rewrite IH. reflexivity.
Qed.

End Spread.

Lemma route_sends (provider model : string) (body : list (string * Wire.Js))
      (upstream : OpenRouter.Upstream) :
  OpenRouter.routeModel provider = Some model ->
  (OpenRouter.route provider body upstream).2
  = Some (OpenRouter.upstreamBody model body).
Proof.
  intros H. unfold OpenRouter.route. rewrite H.
  destruct upstream as [data | st]; [destruct (OpenRouter.reply data)|];
    reflexivity.
Qed.

Lemma routeModel_none (provider : string) :
  OpenRouter.routeModel provider = None <->
  provider <> "openai" /\ provider <> "anthropic" /\ provider <> "google".
Proof.
  unfold OpenRouter.routeModel.
  destruct (String.eqb_spec provider "openai") as [-> | H1];
    [split; [discriminate | tauto]|].
  destruct (String.eqb_spec provider "anthropic") as [-> | H2];
    [split; [discriminate | tauto]|].
  destruct (String.eqb_spec provider "google") as [-> | H3];
    [split; [discriminate | tauto]|].
  tauto.
Qed.

(** X26. [POST /route/:provider] accepts the providers "openai",
    "anthropic" and "google", spelled so, and no other: for any other
    provider it answers 400 "Invalid provider" and sends nothing to
    OpenRouter; for these three it always sends a request. *)
Theorem route_accepts
  (provider : string) (body : list (string * Wire.Js))
  (upstream : OpenRouter.Upstream) :
  ((OpenRouter.route provider body upstream).2 = None <->
   provider <> "openai" /\ provider <> "anthropic" /\ provider <> "google")
  /\ ((OpenRouter.route provider body upstream).2 = None ->
      (OpenRouter.route provider body upstream).1
      = OpenRouter.RouteError 400 "Invalid provider").
Proof.
  rewrite <- routeModel_none.
  destruct (OpenRouter.routeModel provider) as [model|] eqn:Hmodel.
  - rewrite (route_sends provider model body upstream Hmodel).
    split; [split; discriminate | discriminate].
  - unfold OpenRouter.route. rewrite Hmodel. cbn [fst snd].
    split; [split; reflexivity | reflexivity].
Qed.

Lemma route_accepts_witness :
  (OpenRouter.route "OpenAI" [("prompt", Wire.Str "hi")]
     (OpenRouter.Failed None)).1
  = OpenRouter.RouteError 400 "Invalid provider".
Proof.
  apply (route_accepts "OpenAI" [("prompt", Wire.Str "hi")] (OpenRouter.Failed None)).
  reflexivity.
Defined.

(** X27. What the body carries besides [prompt] is spread over the request
    after its [model] and [messages]: a [model] in the body replaces, in
    what is sent to OpenRouter, the model of the provider, and [messages]
    in the body replace the message made of the prompt, while a successful
    answer still names the model of the provider. Without these two fields
    in the body the request carries the provider's model and the prompt. *)
Theorem route_body_overrides
  (provider model : string) (body : list (string * Wire.Js))
  (upstream : OpenRouter.Upstream) :
  OpenRouter.routeModel provider = Some model ->
  exists sent,
    (OpenRouter.route provider body upstream).2 = Some sent
    /\ Wire.own "model" sent
       = (if existsb (String.eqb "model") (map fst body)
          then Wire.own "model" body else Wire.Str model)
    /\ Wire.own "messages" sent
       = (if existsb (String.eqb "messages") (map fst body)
          then Wire.own "messages" body
          else Wire.Arr [Wire.Obj [("role", Wire.Str "user");
                                   ("content", Wire.own "prompt" body)]])
    /\ (forall p m response usage,
          (OpenRouter.route provider body upstream).1
          = OpenRouter.Routed p m response usage -> p = provider /\ m = model).
Proof.
  intros Hmodel. exists (OpenRouter.upstreamBody model body).
  split; [apply route_sends, Hmodel|].
  unfold OpenRouter.route. rewrite Hmodel.
  split; [|split].
  - unfold OpenRouter.upstreamBody. rewrite own_app, keys_options by discriminate.
    rewrite own_options by discriminate. reflexivity.
  - unfold OpenRouter.upstreamBody. rewrite own_app, keys_options by discriminate.
    rewrite own_options by discriminate. reflexivity.
  - intros p m response usage.
    destruct upstream as [data | st]; [destruct (OpenRouter.reply data)|];
      cbn [fst]; intros [= <- <- _ _]; auto; discriminate.
Qed.

Lemma route_body_overrides_witness :
  exists sent,
    (OpenRouter.route "google"
       [("prompt", Wire.Str "hi"); ("model", Wire.Str "openai/gpt-4")]
       (OpenRouter.Failed None)).2 = Some sent
    /\ Wire.own "model" sent = Wire.Str "openai/gpt-4".
Proof.
  destruct (route_body_overrides "google" "google/gemini-pro"
              [("prompt", Wire.Str "hi"); ("model", Wire.Str "openai/gpt-4")]
              (OpenRouter.Failed None) eq_refl) as (sent & Hsent & Hmodel & _).
  exists sent. split; [exact Hsent | exact Hmodel].
Defined.

(** ** Requests and the rotation of endpoints *)

Section Rotation.
Import Router Scenarios Descriptors.

(** The balancer after one more call of [getNextEndpoint]. *)
Lemma generateContent_rotates (env : Env) (fuel : nat) :
  forall models attempts prompt options,
    NoDup (keys models) -> NoDup attempts ->
    (forall k, k ∈ attempts -> down models k) ->
    let r := generateContent env fuel models attempts prompt options in
    forall e, e ∈ models -> e.1 ∈ r.1.2 -> ~ e.1 ∈ attempts ->
      exists e', e' ∈ r.1.1 /\ e'.1 = e.1
                 /\ loadBalancer e'.2
                    = (LoadBalancer.getNextEndpoint (loadBalancer e.2)).2.
Proof.
  induction fuel as [|fuel IH];
    intros models attempts prompt options Hnd Hnda Hdown r e He Hin Hnot.
  - cbn in Hin. contradiction.
  - unfold r in *. clear r. rewrite generateContent_step in Hin |- *.
    destruct (selected models options prompt) as [[key sel]|] eqn:Hsel.
    2:{ cbv zeta in Hin |- *.
        destruct (inherited _); [|cbn in Hin; contradiction].
        destruct (findFallbackModel env models _);
          [apply IH; auto | cbn in Hin; contradiction ..]. }
    pose proof (selected_elem _ _ _ _ Hsel) as Hsel_in.
    destruct (isHealthy sel) eqn:Hsel_up; cbn [negb] in Hin |- *.
    2:{ destruct (findFallbackModel env models key);
          [apply IH; auto | cbn in Hin; contradiction ..]. }
    assert (Hup : up models key) by (exists (key, sel); auto).
    assert (Hfresh : ~ key ∈ attempts)
      by (intros Hk; exact (up_not_down _ _ Hup (Hdown _ Hk))).
    set (lb := (LoadBalancer.getNextEndpoint (loadBalancer sel)).2) in *.
    set (models1 := update_model key (set_loadBalancer lb) models) in *.
    cbv zeta in Hin |- *.
    destruct (post env attempts key).
    + cbn [fst snd] in Hin |- *.
      apply elem_of_app in Hin as [Hin | Hin]; [contradiction|].
      apply list_elem_of_singleton in Hin.
      assert (e = (key, sel)) as -> by (apply (keys_unique models); auto).
      exists (key, set_loadBalancer lb sel). split; [|split; reflexivity].
      apply elem_of_update_model. exists (key, sel). cbn [fst snd].
      rewrite String.eqb_refl. auto.
    + set (models2 := update_model key (set_isHealthy false) models1) in *.
      assert (Hnd2 : NoDup (keys models2))
        by (unfold models2, models1; rewrite !keys_update_model; exact Hnd).
      assert (Hnda1 : NoDup (attempts ++ [key])).
      { apply NoDup_app. repeat split; auto.
        - intros k Hk Hk'. apply list_elem_of_singleton in Hk' as ->. auto.
        - apply NoDup_singleton. }
      assert (Hdown2 : forall k, k ∈ attempts ++ [key] -> down models2 k).
      { intros k Hk. apply elem_of_app in Hk as [Hk | Hk].
        - apply down_update; [apply set_isHealthy_false_flag|].
          apply down_update; [apply set_loadBalancer_flag | auto].
        - apply list_elem_of_singleton in Hk as ->. apply down_marked. }
      assert (Hkey2 : (key, set_isHealthy false (set_loadBalancer lb sel)) ∈ models2).
      { apply elem_of_update_model.
        exists (key, set_loadBalancer lb sel). cbn [fst snd].
        rewrite String.eqb_refl. split; [|reflexivity].
        apply elem_of_update_model. exists (key, sel). cbn [fst snd].
        rewrite String.eqb_refl. auto. }
      assert (Hother2 : e.1 <> key -> e ∈ models2)
        by (intros Hk; apply update_model_other; [apply update_model_other|]; auto).
      destruct (String.eqb_spec e.1 key) as [Hk | Hk].
      * assert (e = (key, sel)) as -> by (apply (keys_unique models); auto).
        assert (Hstay : forall r' : Run,
          (exists new, r'.1.2 = (attempts ++ [key]) ++ new
                       /\ forall x, x ∈ models2 -> ~ x.1 ∈ new -> x ∈ r'.1.1) ->
          NoDup r'.1.2 ->
          exists e', e' ∈ r'.1.1 /\ e'.1 = key /\ loadBalancer e'.2 = lb).
        { intros r' (new & Hnew & Hkeep) Hndr.
          exists (key, set_isHealthy false (set_loadBalancer lb sel)).
          split; [|split; reflexivity]. apply Hkeep; [exact Hkey2|].
          cbn [fst]. intros Hknew. rewrite Hnew in Hndr.
          apply NoDup_app in Hndr as (_ & Hdisj & _).
          apply (Hdisj key); [apply elem_of_app; right; left | exact Hknew]. }
        destruct (findFallbackModel env models2 key) as [f| |].
        -- apply Hstay.
           ++ apply (generateContent_keeps env fuel models2 (attempts ++ [key])
                       prompt _ Hnd2).
           ++ apply (generateContent_ok env fuel models2 (attempts ++ [key]));
                auto.
        -- exists (key, set_isHealthy false (set_loadBalancer lb sel)).
           cbn [fst snd]. auto.
        -- exists (key, set_isHealthy false (set_loadBalancer lb sel)).
           cbn [fst snd]. auto.
      * specialize (Hother2 Hk).
        destruct (findFallbackModel env models2 key) as [f| |].
        -- apply (IH models2 (attempts ++ [key]) prompt _ Hnd2 Hnda1 Hdown2 e
                    Hother2 Hin).
           intros Hk'. apply elem_of_app in Hk' as [Hk' | Hk']; [contradiction|].
           apply list_elem_of_singleton in Hk'. contradiction.
        -- cbn [fst snd] in Hin. apply elem_of_app in Hin as [Hin | Hin];
             [contradiction|].
           apply list_elem_of_singleton in Hin. contradiction.
        -- cbn [fst snd] in Hin. apply elem_of_app in Hin as [Hin | Hin];
             [contradiction|].
           apply list_elem_of_singleton in Hin. contradiction.
Qed.

End Rotation.

(** X28. A request moves the rotation of every provider it attempts by
    exactly one endpoint, whether the attempt succeeds or fails: after the
    request the balancer of an attempted provider is the one a single call
    of [getNextEndpoint] leaves. *)
Theorem request_rotates_once
  (env : Router.Env) (fuel : nat) (models : Router.Registry)
  (prompt : string) (options : Router.Options) (e : Router.Entry) :
  NoDup (Router.keys models) -> e ∈ models ->
  let r := Router.generateContent env fuel models [] prompt options in
  e.1 ∈ r.1.2 ->
  exists e', e' ∈ r.1.1 /\ e'.1 = e.1
             /\ Router.loadBalancer e'.2
                = (LoadBalancer.getNextEndpoint (Router.loadBalancer e.2)).2.
Proof.
  intros Hnd He r Hin.
  apply (generateContent_rotates env fuel models [] prompt options Hnd
           NoDup_nil_2); auto.
  - intros k Hk. apply elem_of_nil in Hk as [].
  - intros Hk. apply elem_of_nil in Hk as [].
Qed.

Lemma request_rotates_once_witness :
  exists e',
    e' ∈ (Router.generateContent Scenarios.failing 1 Samples.twoEndpoints []
            "hello" (Scenarios.pinned "gemma3" "analysis")).1.1
    /\ e'.1 = "gemma3"
    /\ Router.loadBalancer e'.2
       = LoadBalancer.mkLB ["http://gemma3:8000"; "http://gemma3-b:8000"]
           (LoadBalancer.Idx 1).
Proof.
  destruct (request_rotates_once Scenarios.failing 1 Samples.twoEndpoints
              "hello" (Scenarios.pinned "gemma3" "analysis")
              ("gemma3",
               Router.set_loadBalancer
                 (LoadBalancer.new ["http://gemma3:8000"; "http://gemma3-b:8000"])
                 Samples.gemma3Model)
              (initial_keys_nodup 0))
    as (e' & Hin & Hk & Hlb).
  - left.
  - left.
  - exists e'. split; [exact Hin|]. split; [exact Hk | exact Hlb].
Defined.

(** ** The registry over the life of the router *)

Lemma run_keeps_statics (events : list System.Event) :
  forall models,
    NoDup (Router.keys models) ->
    Descriptors.statics (System.run models events) = Descriptors.statics models.
Proof.
  induction events as [|ev events IH]; intros models Hnd; [reflexivity|].
  unfold System.run. cbn [foldl]. fold (System.run (System.step models ev) events).
  assert (Hstep : Descriptors.statics (System.step models ev)
                  = Descriptors.statics models).
  { destruct ev as [probe now | env fuel prompt options]; cbn [System.step].
    - apply (health_check_overwrites probe now models).
    - apply (generateContent_keeps env fuel models [] prompt options Hnd). }
  rewrite IH; [exact Hstep|].
  replace (Router.keys (System.step models ev)) with (Router.keys models);
    [exact Hnd|].
  unfold Router.keys, Descriptors.statics in *.
  apply (f_equal (map fst)) in Hstep.
  rewrite <- !list_fmap_compose in Hstep. symmetry. exact Hstep.
Qed.

(** X29. Over the life of the router, through any sequence of health checks
    and requests, the registry keeps its providers, their order, their
    descriptors and their lists of endpoints: only flags, timestamps and
    the positions of the rotations change. *)
Theorem registry_fixed_for_life
  (models : Router.Registry) (events : list System.Event) :
  NoDup (Router.keys models) ->
  Descriptors.statics (System.run models events) = Descriptors.statics models
  /\ Router.keys (System.run models events) = Router.keys models.
Proof.
  intros Hnd. pose proof (run_keeps_statics events models Hnd) as Hs.
  split; [exact Hs|].
  unfold Router.keys, Descriptors.statics in *.
  apply (f_equal (map fst)) in Hs.
  rewrite <- !list_fmap_compose in Hs. exact Hs.
Qed.

Lemma registry_fixed_for_life_witness :
  Router.keys
    (System.run (Router.initializeModels 0)
       [System.Generate Scenarios.failing 3 "hello" (Scenarios.unpinned "analysis");
        System.Tick (fun _ => Router.Responded 503) (fun _ => 30000)])
  = ["gemma3"; "chatterbox"; "hfHub"].
Proof.
  apply (registry_fixed_for_life (Router.initializeModels 0)
           [System.Generate Scenarios.failing 3 "hello" (Scenarios.unpinned "analysis");
            System.Tick (fun _ => Router.Responded 503) (fun _ => 30000)]
           (initial_keys_nodup 0)).
Defined.
